(** * The entity route: GET / PATCH / DELETE on /api/entities/[id]

    A shallow embedding of [src/app/api/entities/[id]/route.ts].

    The three handlers are glue around collaborators that live outside the
    file: the session lookup, the tenant context, the entity service, the
    request object and the logger.  Their answers are collected in an
    environment record and a request record; every call the handler makes is
    written to a trace, so that "is invoked", "is never invoked" and "in this
    order" are statements about lists of events.  JavaScript exceptions are
    the [Throw] case of a result type, and [try { ... } catch (error) { ... }]
    is the combinator [try_catch]. *)

From Stdlib Require Import String Ascii List Bool Arith ZArith Lia Sorted.
Import ListNotations.
Open Scope string_scope.

(** ** JavaScript values *)

(** The values that travel through the handlers: parsed JSON bodies, entities
    returned by the service, the object produced by the schema.  An object is
    the list of its own properties, looked up by key (first entry wins).  The
    handlers never compute with a number, which is kept as an integer here.
    A string stands for a JavaScript string, one character per code unit. *)
#[warnings="-register-all"]
Inductive JsValue : Type :=
| JUndefined
| JNull
| JBool (b : bool)
| JNumber (n : Z)
| JString (s : string)
| JArray (items : list JsValue)
| JObject (props : list (string * JsValue)).

Fixpoint lookup (props : list (string * JsValue)) (key : string) : option JsValue :=
  match props with
  | [] => None
  | (k, v) :: rest => if String.eqb k key then Some v else lookup rest key
  end.

(** [data[key]] on an object. *)
Definition property (props : list (string * JsValue)) (key : string) : JsValue :=
  match lookup props key with
  | Some v => v
  | None => JUndefined
  end.

(** [key in data]. *)
Definition has_property (props : list (string * JsValue)) (key : string) : bool :=
  match lookup props key with
  | Some _ => true
  | None => false
  end.

(** [s.includes(sub)] *)
Fixpoint includes (s sub : string) : bool :=
  String.prefix sub s
  || match s with
     | EmptyString => false
     | String _ rest => includes rest sub
     end.

(** ** zod: the part of the library the update schema uses *)

(** The route validates with zod 3 ([error.errors] is read in the catch
    clause).  The library is not part of the route; what follows is its
    parsing of the four combinators the schema is built from: [z.object]
    in its default mode, which drops keys that are not in the shape,
    [z.string] with [min] and [max], [z.enum] and [optional]. *)

Module Zod.

(** An issue of a [ZodError]: its code, the data the code carries and the
    path of the value it is about. *)
Inductive ZodIssue : Type :=
| invalid_type (expected received : string) (path : list string)
| invalid_enum_value (received : string) (options : list string) (path : list string)
| too_small (minimum : nat) (path : list string)
| too_big (maximum : nat) (path : list string).

Definition issue_path (i : ZodIssue) : list string :=
  match i with
  | invalid_type _ _ p => p
  | invalid_enum_value _ _ p => p
  | too_small _ p => p
  | too_big _ p => p
  end.

Inductive StringCheck : Type :=
| check_min (value : nat)
| check_max (value : nat).

(** [z.string()] with its checks, [z.enum([...])], [.optional()]. *)
Inductive ZodType : Type :=
| ZodString (checks : list StringCheck)
| ZodEnum (values : list string)
| ZodOptional (innerType : ZodType).

(** [z.object({...})]: the shape, in declaration order, with zod's default
    treatment of unknown keys (they are stripped). *)
Definition ZodObject : Type := list (string * ZodType).

(** Outcome of [_parse]: aborted, or a value that is dirty or valid. *)
Inductive ParseReturn : Type :=
| INVALID
| DIRTY (value : JsValue)
| VALID (value : JsValue).

Definition getParsedType (data : JsValue) : string :=
  match data with
  | JUndefined => "undefined"
  | JNull => "null"
  | JBool _ => "boolean"
  | JNumber _ => "number"
  | JString _ => "string"
  | JArray _ => "array"
  | JObject _ => "object"
  end.

(** [util.joinValues]: 'A' | 'B' | ... *)
Fixpoint joinValues (values : list string) : string :=
  match values with
  | [] => ""
  | [v] => "'" ++ v ++ "'"
  | v :: rest => "'" ++ v ++ "' | " ++ joinValues rest
  end.

Definition run_check (path : list string) (s : string) (c : StringCheck) : list ZodIssue :=
  match c with
  | check_min value => if Nat.ltb (String.length s) value then [too_small value path] else []
  | check_max value => if Nat.ltb value (String.length s) then [too_big value path] else []
  end.

Definition string_member (s : string) (values : list string) : bool :=
  existsb (String.eqb s) values.

Fixpoint _parse (t : ZodType) (path : list string) (data : JsValue)
  : ParseReturn * list ZodIssue :=
  match t with
  | ZodString checks =>
      match data with
      | JString s =>
          let issues := flat_map (run_check path s) checks in
          match issues with
          | [] => (VALID data, [])
          | _ => (DIRTY data, issues)
          end
      | _ => (INVALID, [invalid_type "string" (getParsedType data) path])
      end
  | ZodEnum values =>
      match data with
      | JString s =>
          if string_member s values then (VALID data, [])
          else (INVALID, [invalid_enum_value s values path])
      | _ => (INVALID, [invalid_type (joinValues values) (getParsedType data) path])
      end
  | ZodOptional innerType =>
      match data with
      | JUndefined => (VALID JUndefined, [])
      | _ => _parse innerType path data
      end
  end.

(** One entry of the [pairs] array of [ZodObject._parse]. *)
Record Pair : Type := mkPair {
  pair_key : string;
  pair_value : ParseReturn;
  alwaysSet : bool
}.

Definition is_undefined (v : JsValue) : bool :=
  match v with
  | JUndefined => true
  | _ => false
  end.

Definition set_key (p : Pair) (value : JsValue) (finalObject : list (string * JsValue))
  : list (string * JsValue) :=
  if negb (String.eqb (pair_key p) "__proto__") && (negb (is_undefined value) || alwaysSet p)
  then (finalObject ++ [(pair_key p, value)])%list
  else finalObject.

(** [ParseStatus.mergeObjectSync]: the first aborted value aborts the
    object; a dirty value makes the object dirty. *)
Fixpoint mergeObjectSync (dirty : bool) (finalObject : list (string * JsValue))
  (pairs : list Pair) : ParseReturn :=
  match pairs with
  | [] => if dirty then DIRTY (JObject finalObject) else VALID (JObject finalObject)
  | p :: rest =>
      match pair_value p with
      | INVALID => INVALID
      | DIRTY value => mergeObjectSync true (set_key p value finalObject) rest
      | VALID value => mergeObjectSync dirty (set_key p value finalObject) rest
      end
  end.

(** [ZodObject._parse] at the root: every key of the shape is parsed (so
    every field's issues are collected), then the pairs are merged.  Keys
    of the data that are not in the shape are not looked at. *)
Definition parse_field (props : list (string * JsValue)) (field : string * ZodType)
  : Pair * list ZodIssue :=
  let (key, keyValidator) := field in
  let (value, issues) := _parse keyValidator [key] (property props key) in
  (mkPair key value (has_property props key), issues).

Definition object_parse (shape : ZodObject) (data : JsValue)
  : ParseReturn * list ZodIssue :=
  match data with
  | JObject props =>
      let parsed := map (parse_field props) shape in
      (mergeObjectSync false [] (map fst parsed), flat_map snd parsed)
  | _ => (INVALID, [invalid_type "object" (getParsedType data) []])
  end.

End Zod.
Export Zod.

(** ** Exceptions and results *)

(** What a [catch] clause can receive: an [Error] that is not a [ZodError]
    (with its class name and message), a [ZodError] (a subclass of [Error]
    whose message is computed from the issues when it is read), or any other
    thrown value. *)
Inductive Thrown : Type :=
| ThrownError (name message : string)
| ThrownZodError (issues : list ZodIssue)
| ThrownValue (v : JsValue).

Inductive Result (A : Type) : Type :=
| Ok (a : A)
| Throw (e : Thrown).
Arguments Ok {A} a.
Arguments Throw {A} e.

(** [schema.parse(data)]: the value when the outcome is valid, a thrown
    [ZodError] with the collected issues otherwise. *)
Definition schema_parse (shape : ZodObject) (data : JsValue) : Result JsValue :=
  match object_parse shape data with
  | (VALID value, _) => Ok value
  | (_, []) => Throw (ThrownError "Error" "Validation failed but no issues detected.")
  | (_, issues) => Throw (ThrownZodError issues)
  end.

(** Validation schema for entity updates *)
Definition updateEntitySchema : ZodObject :=
  [ ("name", ZodOptional (ZodString [check_min 1; check_max 255]));
    ("legalForm", ZodOptional (ZodString []));
    ("status", ZodOptional (ZodEnum ["ACTIVE"; "PENDING"; "ARCHIVED"; "SUSPENDED"]));
    ("activityCode", ZodOptional (ZodString [])) ].

(** ** Sessions, tenant context, request, responses *)

Record User : Type := { user_id : option string }.
Record Session : Type := { user : option User }.
Record TenantContext : Type := { tenantId : string }.
Record Params : Type := { id : string }.

(** [session?.user?.id] *)
Definition session_user_id (session : option Session) : option string :=
  match session with
  | Some s =>
      match user s with
      | Some u => user_id u
      | None => None
      end
  | None => None
  end.

(** The guard [!session?.user?.id] fails exactly when this is [None]: the
    identifier is there and is not the empty string. *)
Definition authenticated (session : option Session) : option string :=
  match session_user_id session with
  | Some uid => if String.eqb uid "" then None else Some uid
  | None => None
  end.

(** The four object literals handed to [NextResponse.json]. *)
Inductive Body : Type :=
| error_body (error : string)
| validation_body (error : string) (details : list ZodIssue)
| data_body (data : JsValue)
| message_body (message : string).

Record Response : Type := { status : nat; body : Body }.

(** [searchParams.get(name)]: the first value given for the name, or null. *)
Fixpoint searchParams_get (searchParams : list (string * string)) (name : string)
  : option string :=
  match searchParams with
  | [] => None
  | (k, v) :: rest => if String.eqb k name then Some v else searchParams_get rest name
  end.

(** [value === "true"] for a value that is a string or null. *)
Definition is_true_string (value : option string) : bool :=
  match value with
  | Some s => String.eqb s "true"
  | None => false
  end.

(** The request: what [request.json()] resolves or rejects with, and the
    query parameters of [request.nextUrl]. *)
Record NextRequest : Type := {
  request_json : Result JsValue;
  searchParams : list (string * string)
}.

(** The collaborators imported by the route.  [zod_message] is the text of
    a [ZodError]'s [message] property for a list of issues. *)
Record Env : Type := {
  env_getServerSession : Result (option Session);
  env_getContext : Result TenantContext;
  env_getEntity : string -> string -> Result JsValue;
  env_updateEntity : string -> string -> string -> JsValue -> Result JsValue;
  env_deleteEntity : string -> string -> string -> Result unit;
  env_archiveEntity : string -> string -> string -> Result unit;
  zod_message : list ZodIssue -> string
}.

(** ** Traces *)

Inductive Event : Type :=
| EvGetServerSession
| EvGetContext
| EvRequestJson
| EvSchemaParse (data : JsValue)
| EvGetEntity (tenant entityId : string)
| EvUpdateEntity (tenant entityId userId : string) (input : JsValue)
| EvDeleteEntity (tenant entityId userId : string)
| EvArchiveEntity (tenant entityId userId : string)
| EvLogInfo (message : string) (fields : list (string * JsValue))
| EvLogError (message : string) (error : Thrown) (entityId : string)
| EvRespond (response : Response).

(** A computation: the events it produced, in order, and how it ended. *)
Definition M (A : Type) : Type := list Event * Result A.

Definition ret {A : Type} (a : A) : M A := ([], Ok a).

Definition bind {A B : Type} (m : M A) (k : A -> M B) : M B :=
  match m with
  | (t, Ok a) => let (t', r) := k a in ((t ++ t')%list, r)
  | (t, Throw e) => (t, Throw e)
  end.

Definition try_catch {A : Type} (m : M A) (handler : Thrown -> M A) : M A :=
  match m with
  | (t, Ok a) => (t, Ok a)
  | (t, Throw e) => let (t', r) := handler e in ((t ++ t')%list, r)
  end.

(** A call to a collaborator: the event, then the collaborator's answer. *)
Definition call {A : Type} (ev : Event) (answer : Result A) : M A := ([ev], answer).

Definition emit (ev : Event) : M unit := ([ev], Ok tt).

Declare Scope route_scope.
Delimit Scope route_scope with route.
Notation "x <- m ;; k" := (bind m (fun x => k))
  (at level 100, m at next level, right associativity) : route_scope.
Notation "m ;;; k" := (bind m (fun _ => k))
  (at level 100, right associativity) : route_scope.
Open Scope route_scope.

Definition getServerSession (env : Env) : M (option Session) :=
  call EvGetServerSession (env_getServerSession env).

Definition tenantContext_getContext (env : Env) : M TenantContext :=
  call EvGetContext (env_getContext env).

Definition json (request : NextRequest) : M JsValue :=
  call EvRequestJson (request_json request).

Definition updateEntitySchema_parse (data : JsValue) : M JsValue :=
  call (EvSchemaParse data) (schema_parse updateEntitySchema data).

Definition getEntity (env : Env) (tenant entityId : string) : M JsValue :=
  call (EvGetEntity tenant entityId) (env_getEntity env tenant entityId).

Definition updateEntity (env : Env) (tenant entityId userId : string) (input : JsValue)
  : M JsValue :=
  call (EvUpdateEntity tenant entityId userId input)
       (env_updateEntity env tenant entityId userId input).

Definition deleteEntity (env : Env) (tenant entityId userId : string) : M unit :=
  call (EvDeleteEntity tenant entityId userId) (env_deleteEntity env tenant entityId userId).

Definition archiveEntity (env : Env) (tenant entityId userId : string) : M unit :=
  call (EvArchiveEntity tenant entityId userId) (env_archiveEntity env tenant entityId userId).

Definition logger_info (message : string) (fields : list (string * JsValue)) : M unit :=
  emit (EvLogInfo message fields).

Definition logger_error (message : string) (error : Thrown) (entityId : string) : M unit :=
  emit (EvLogError message error entityId).

(** [NextResponse.json(body, { status })]; the status is 200 when none is given. *)
Definition NextResponse_json (b : Body) (st : nat) : M Response :=
  let r := {| status := st; body := b |} in
  call (EvRespond r) (Ok r).

(** [value[key]] on any value that is not null or undefined: a property of
    an object, undefined on a value that has no such property. *)
Definition member (value : JsValue) (key : string) : JsValue :=
  match value with
  | JObject props => property props key
  | _ => JUndefined
  end.

Definition nullish (value : JsValue) : bool :=
  match value with
  | JUndefined | JNull => true
  | _ => false
  end.

(** [entity.id]: reading a property of null or undefined throws a TypeError. *)
Definition read_id (entity : JsValue) : M JsValue :=
  if nullish entity
  then ([], Throw (ThrownError "TypeError"
                     ("Cannot read properties of " ++ getParsedType entity ++ " (reading 'id')")))
  else ret (member entity "id").

(** [error instanceof Error && error.message.includes("Unauthorized")] *)
Definition is_unauthorized (env : Env) (error : Thrown) : bool :=
  match error with
  | ThrownError _ message => includes message "Unauthorized"
  | ThrownZodError issues => includes (zod_message env issues) "Unauthorized"
  | ThrownValue _ => false
  end.

(** ** The handlers *)

Definition GET_try (env : Env) (request : NextRequest) (params : Params) : M Response :=
  session <- getServerSession env ;;
  match authenticated session with
  | None => NextResponse_json (error_body "Unauthorized") 401
  | Some _ =>
      ctx <- tenantContext_getContext env ;;
      entity <- getEntity env (tenantId ctx) (id params) ;;
      NextResponse_json (data_body entity) 200
  end.

Definition GET_catch (env : Env) (params : Params) (error : Thrown) : M Response :=
  if is_unauthorized env error
  then NextResponse_json (error_body "Not found or unauthorized") 404
  else
    logger_error "Error fetching entity" error (id params) ;;;
    NextResponse_json (error_body "Internal server error") 500.

Definition GET (env : Env) (request : NextRequest) (params : Params) : M Response :=
  try_catch (GET_try env request params) (GET_catch env params).

Definition PATCH_try (env : Env) (request : NextRequest) (params : Params) : M Response :=
  session <- getServerSession env ;;
  match authenticated session with
  | None => NextResponse_json (error_body "Unauthorized") 401
  | Some userId =>
      ctx <- tenantContext_getContext env ;;
      body <- json request ;;
      input <- updateEntitySchema_parse body ;;
      entity <- updateEntity env (tenantId ctx) (id params) userId input ;;
      entityId <- read_id entity ;;
      logger_info "Entity updated successfully" [("entityId", entityId)] ;;;
      NextResponse_json (data_body entity) 200
  end.

Definition PATCH_catch (env : Env) (params : Params) (error : Thrown) : M Response :=
  match error with
  | ThrownZodError issues =>
      NextResponse_json (validation_body "Validation error" issues) 400
  | _ =>
      if is_unauthorized env error
      then NextResponse_json (error_body "Not found or unauthorized") 404
      else
        logger_error "Error updating entity" error (id params) ;;;
        NextResponse_json (error_body "Internal server error") 500
  end.

Definition PATCH (env : Env) (request : NextRequest) (params : Params) : M Response :=
  try_catch (PATCH_try env request params) (PATCH_catch env params).

Definition DELETE_try (env : Env) (request : NextRequest) (params : Params) : M Response :=
  session <- getServerSession env ;;
  match authenticated session with
  | None => NextResponse_json (error_body "Unauthorized") 401
  | Some userId =>
      ctx <- tenantContext_getContext env ;;
      let permanent := is_true_string (searchParams_get (searchParams request) "permanent") in
      (if permanent
       then deleteEntity env (tenantId ctx) (id params) userId
       else archiveEntity env (tenantId ctx) (id params) userId) ;;;
      logger_info "Entity deleted/archived successfully"
                  [("entityId", JString (id params)); ("permanent", JBool permanent)] ;;;
      NextResponse_json
        (message_body (if permanent then "Entity deleted" else "Entity archived")) 200
  end.

Definition DELETE_catch (env : Env) (params : Params) (error : Thrown) : M Response :=
  if is_unauthorized env error
  then NextResponse_json (error_body "Not found or unauthorized") 404
  else
    logger_error "Error deleting entity" error (id params) ;;;
    NextResponse_json (error_body "Internal server error") 500.

Definition DELETE (env : Env) (request : NextRequest) (params : Params) : M Response :=
  try_catch (DELETE_try env request params) (DELETE_catch env params).

(** ** Phases of a request, and what a trace calls *)

(** The step of the shared control contract an event belongs to. *)
Definition phase (ev : Event) : nat :=
  match ev with
  | EvGetServerSession => 0
  | EvGetContext => 1
  | EvRequestJson => 2
  | EvSchemaParse _ => 3
  | EvGetEntity _ _ => 4
  | EvUpdateEntity _ _ _ _ => 4
  | EvDeleteEntity _ _ _ => 4
  | EvArchiveEntity _ _ _ => 4
  | EvLogInfo _ _ => 5
  | EvLogError _ _ _ => 5
  | EvRespond _ => 6
  end.

Definition in_order (trace : list Event) : Prop :=
  StronglySorted (fun a b => phase a < phase b) trace.

Definition is_domain_call (ev : Event) : bool :=
  match ev with
  | EvGetEntity _ _ | EvUpdateEntity _ _ _ _ | EvDeleteEntity _ _ _ | EvArchiveEntity _ _ _ => true
  | _ => false
  end.

Definition is_update (ev : Event) : bool :=
  match ev with
  | EvUpdateEntity _ _ _ _ => true
  | _ => false
  end.

Definition is_delete (ev : Event) : bool :=
  match ev with
  | EvDeleteEntity _ _ _ => true
  | _ => false
  end.

Definition is_archive (ev : Event) : bool :=
  match ev with
  | EvArchiveEntity _ _ _ => true
  | _ => false
  end.

Definition is_schema_parse (ev : Event) : bool :=
  match ev with
  | EvSchemaParse _ => true
  | _ => false
  end.

(** The properties of a body that the shape declares; the rest is what the
    schema strips. *)
Definition known_only (shape : ZodObject) (props : list (string * JsValue))
  : list (string * JsValue) :=
  filter (fun kv => string_member (fst kv) (map fst shape)) props.

Definition trace_of {A : Type} (m : M A) : list Event := fst m.
Definition outcome_of {A : Type} (m : M A) : Result A := snd m.

(** The response to a failure that nothing classifies. *)
Definition internal_error : Response :=
  {| status := 500; body := error_body "Internal server error" |}.

Definition signed_in (env : Env) : Prop :=
  exists session uid, env_getServerSession env = Ok session /\ authenticated session = Some uid.

Definition tenant_resolved (env : Env) : Prop :=
  exists ctx, env_getContext env = Ok ctx.

Definition validated (request : NextRequest) (ev : Event) : Prop :=
  exists data input tenant entityId userId,
    request_json request = Ok data /\
    schema_parse updateEntitySchema data = Ok input /\
    ev = EvUpdateEntity tenant entityId userId input.

(** One request, handled in sequence: the events come in the order session
    lookup, tenant resolution, body parsing, validation, domain call, log,
    response, each at most once; the session lookup is first and the response
    is last; the tenant is resolved only for a signed-in caller; a domain
    operation is called only for a signed-in caller whose tenant is resolved,
    and an update only with the input the schema accepted. *)
Definition in_sequence (env : Env) (request : NextRequest) (m : M Response) : Prop :=
  in_order (trace_of m) /\
  hd_error (trace_of m) = Some EvGetServerSession /\
  (exists r, last (trace_of m) EvGetServerSession = EvRespond r /\ outcome_of m = Ok r) /\
  (In EvGetContext (trace_of m) -> signed_in env) /\
  (forall ev, In ev (trace_of m) -> is_domain_call ev = true ->
     signed_in env /\ tenant_resolved env /\ (is_update ev = true -> validated request ev)).

(** ** Sample collaborators *)

Definition alice : option Session := Some {| user := Some {| user_id := Some "user-1" |} |}.
Definition acme : TenantContext := {| tenantId := "tenant-1" |}.
Definition entity_42 : Params := {| id := "42" |}.

Definition acme_ltd : JsValue :=
  JObject [("id", JString "42"); ("name", JString "Acme Ltd"); ("status", JString "ACTIVE")].

Definition sample_env : Env :=
  {| env_getServerSession := Ok alice;
     env_getContext := Ok acme;
     env_getEntity := fun _ _ => Ok acme_ltd;
     env_updateEntity := fun _ _ _ _ => Ok acme_ltd;
     env_deleteEntity := fun _ _ _ => Ok tt;
     env_archiveEntity := fun _ _ _ => Ok tt;
     zod_message := fun _ => "[]" |}.

Definition with_session (env : Env) (answer : Result (option Session)) : Env :=
  {| env_getServerSession := answer;
     env_getContext := env_getContext env;
     env_getEntity := env_getEntity env;
     env_updateEntity := env_updateEntity env;
     env_deleteEntity := env_deleteEntity env;
     env_archiveEntity := env_archiveEntity env;
     zod_message := zod_message env |}.

Definition with_getEntity (env : Env) (answer : Result JsValue) : Env :=
  {| env_getServerSession := env_getServerSession env;
     env_getContext := env_getContext env;
     env_getEntity := fun _ _ => answer;
     env_updateEntity := env_updateEntity env;
     env_deleteEntity := env_deleteEntity env;
     env_archiveEntity := env_archiveEntity env;
     zod_message := zod_message env |}.

Definition request_with_body (answer : Result JsValue) : NextRequest :=
  {| request_json := answer; searchParams := [] |}.

Definition request_with_query (query : list (string * string)) : NextRequest :=
  {| request_json := Ok JUndefined; searchParams := query |}.

Definition double_quote : string := String (Ascii.ascii_of_nat 34) EmptyString.

(** The message V8 gives [JSON.parse] for the one-word body [Unauthorized]. *)
Definition not_json_message : string :=
  "Unexpected token 'U', " ++ double_quote ++ "Unauthorized" ++ double_quote
  ++ " is not valid JSON".

(** A service whose every operation fails with an error that carries no marker. *)
Definition database_down : Thrown := ThrownError "Error" "connection refused".

Definition failing_env : Env :=
  {| env_getServerSession := Ok alice;
     env_getContext := Ok acme;
     env_getEntity := fun _ _ => Throw database_down;
     env_updateEntity := fun _ _ _ _ => Throw database_down;
     env_deleteEntity := fun _ _ _ => Throw database_down;
     env_archiveEntity := fun _ _ _ => Throw database_down;
     zod_message := fun _ => "[]" |}.

(** ** Responses, logs and accepted bodies *)

Definition unauthorized : Response :=
  {| status := 401; body := error_body "Unauthorized" |}.

Definition not_found : Response :=
  {| status := 404; body := error_body "Not found or unauthorized" |}.

Definition validation_error (issues : list ZodIssue) : Response :=
  {| status := 400; body := validation_body "Validation error" issues |}.

Definition is_log_error (ev : Event) : bool :=
  match ev with
  | EvLogError _ _ _ => true
  | _ => false
  end.

Definition is_log_info (ev : Event) : bool :=
  match ev with
  | EvLogInfo _ _ => true
  | _ => false
  end.

(** The keys declared by [updateEntitySchema], in declaration order. *)
Definition schema_keys : list string := map fst updateEntitySchema.

(** The constraint of each field of the schema, read as a test on a value. *)
Definition is_string (v : JsValue) : bool :=
  match v with
  | JString _ => true
  | _ => false
  end.

Definition name_ok (v : JsValue) : bool :=
  match v with
  | JString s => Nat.leb 1 (String.length s) && Nat.leb (String.length s) 255
  | _ => false
  end.

Definition status_ok (v : JsValue) : bool :=
  match v with
  | JString s => string_member s ["ACTIVE"; "PENDING"; "ARCHIVED"; "SUSPENDED"]
  | _ => false
  end.

(** An optional field: absent (or undefined), or a value that passes. *)
Definition optional_field (ok : JsValue -> bool) (v : option JsValue) : bool :=
  match v with
  | None => true
  | Some JUndefined => true
  | Some value => ok value
  end.

Definition acceptable (props : list (string * JsValue)) : bool :=
  optional_field name_ok (lookup props "name")
  && optional_field is_string (lookup props "legalForm")
  && optional_field status_ok (lookup props "status")
  && optional_field is_string (lookup props "activityCode").

(** The property a body has under a key, as a list of at most one entry. *)
Definition pick (props : list (string * JsValue)) (key : string) : list (string * JsValue) :=
  match lookup props key with
  | Some v => [(key, v)]
  | None => []
  end.

(** The body cut down to some keys, in the order of the keys. *)
Definition restrict (props : list (string * JsValue)) (ks : list string)
  : list (string * JsValue) :=
  flat_map (pick props) ks.

(** The thrown value is an [Error] whose message has the marker in it. *)
Definition carries_marker (env : Env) (e : Thrown) : Prop :=
  match e with
  | ThrownError _ message => exists pre post, message = pre ++ "Unauthorized" ++ post
  | ThrownZodError issues => exists pre post, zod_message env issues = pre ++ "Unauthorized" ++ post
  | ThrownValue _ => False
  end.

Definition error_logs (trace : list Event) : list Event := filter is_log_error trace.
Definition info_logs (trace : list Event) : list Event := filter is_log_info trace.
Definition domain_calls (trace : list Event) : list Event := filter is_domain_call trace.

(** A service that rejects the update with a [ZodError] of its own. *)
Definition service_issues : list ZodIssue := [invalid_type "string" "number" ["taxId"]].

Definition rejecting_env : Env :=
  {| env_getServerSession := Ok alice;
     env_getContext := Ok acme;
     env_getEntity := fun _ _ => Throw (ThrownError "Error" "Unauthorized");
     env_updateEntity := fun _ _ _ _ => Throw (ThrownZodError service_issues);
     env_deleteEntity := fun _ _ _ => Throw (ThrownError "Error" "Unauthorized");
     env_archiveEntity := fun _ _ _ => Throw (ThrownError "Error" "Entity is Unauthorized for tenant");
     zod_message := fun _ => "Unauthorized" |}.

(** A service whose update resolves to null. *)
Definition null_env : Env :=
  {| env_getServerSession := Ok alice;
     env_getContext := Ok acme;
     env_getEntity := fun _ _ => Ok JNull;
     env_updateEntity := fun _ _ _ _ => Ok JNull;
     env_deleteEntity := fun _ _ _ => Ok tt;
     env_archiveEntity := fun _ _ _ => Ok tt;
     zod_message := fun _ => "[]" |}.

(** A tenant context that cannot be resolved, and says so with the marker. *)
Definition tenantless_env : Env :=
  {| env_getServerSession := Ok alice;
     env_getContext := Throw (ThrownError "Error" "Unauthorized: no tenant context");
     env_getEntity := fun _ _ => Ok acme_ltd;
     env_updateEntity := fun _ _ _ _ => Ok acme_ltd;
     env_deleteEntity := fun _ _ _ => Ok tt;
     env_archiveEntity := fun _ _ _ => Ok tt;
     zod_message := fun _ => "[]" |}.

(** * Properties *)

(** ** Running a handler *)

Ltac unfold_route :=
  unfold GET, PATCH, DELETE, GET_try, PATCH_try, DELETE_try,
    GET_catch, PATCH_catch, DELETE_catch,
    getServerSession, tenantContext_getContext, json, updateEntitySchema_parse,
    getEntity, updateEntity, deleteEntity, archiveEntity,
    logger_info, logger_error, NextResponse_json, call, emit,
    trace_of, outcome_of.

Lemma authenticated_none (session : option Session) :
  (forall uid, session_user_id session = Some uid -> uid = "") ->
  authenticated session = None.
Proof.
  intros H. unfold authenticated.
  destruct (session_user_id session) as [uid|]; [|reflexivity].
  rewrite (H uid eq_refl). reflexivity.
Qed.

(** ** Authentication *)

(** C2. When the session lookup answers with no session, or with a session
    that carries no user identifier or an empty one, each of GET, PATCH and
    DELETE responds 401 with the body [{ error: "Unauthorized" }], and does
    nothing else. *)
Theorem unauthenticated_is_401 (env : Env) (request : NextRequest) (params : Params)
    (session : option Session) :
  env_getServerSession env = Ok session ->
  (forall uid, session_user_id session = Some uid -> uid = "") ->
  let r := {| status := 401; body := error_body "Unauthorized" |} in
  GET env request params = ([EvGetServerSession; EvRespond r], Ok r) /\
  PATCH env request params = ([EvGetServerSession; EvRespond r], Ok r) /\
  DELETE env request params = ([EvGetServerSession; EvRespond r], Ok r).
Proof.
  intros Hs Hid r.
  apply authenticated_none in Hid.
  unfold_route. rewrite Hs. cbn [bind]. rewrite Hid.
  repeat split; reflexivity.
Qed.

Lemma unauthenticated_is_401_witness :
  let env := with_session sample_env (Ok (Some {| user := Some {| user_id := Some "" |} |})) in
  let r := {| status := 401; body := error_body "Unauthorized" |} in
  GET env (request_with_query []) entity_42 = ([EvGetServerSession; EvRespond r], Ok r) /\
  PATCH env (request_with_query []) entity_42 = ([EvGetServerSession; EvRespond r], Ok r) /\
  DELETE env (request_with_query []) entity_42 = ([EvGetServerSession; EvRespond r], Ok r).
Proof.
  intros env r.
  apply (unauthenticated_is_401 env (request_with_query []) entity_42
           (Some {| user := Some {| user_id := Some "" |} |})).
  - reflexivity.
  - intros uid H. simpl in H. congruence.
Defined.

(** ** Domain errors on GET *)

(** C1, as the code has it.  When [getEntity] throws an [Error], GET answers
    404 with [{ error: "Not found or unauthorized" }] if the message contains
    the marker "Unauthorized" (whatever else it says), and 500 with
    [{ error: "Internal server error" }] if it does not. *)
Theorem get_domain_error_by_marker (env : Env) (request : NextRequest) (params : Params)
    (session : option Session) (uid : string) (ctx : TenantContext)
    (name message : string) :
  env_getServerSession env = Ok session ->
  authenticated session = Some uid ->
  env_getContext env = Ok ctx ->
  env_getEntity env (tenantId ctx) (id params) = Throw (ThrownError name message) ->
  outcome_of (GET env request params) =
    Ok (if includes message "Unauthorized"
        then {| status := 404; body := error_body "Not found or unauthorized" |}
        else {| status := 500; body := error_body "Internal server error" |}).
Proof.
  intros Hs Ha Hc He.
  unfold_route. rewrite Hs. cbn [bind]. rewrite Ha, Hc. cbn [bind]. rewrite He.
  cbn [bind try_catch is_unauthorized].
  destruct (includes message "Unauthorized"); reflexivity.
Qed.

Lemma get_domain_error_by_marker_witness :
  outcome_of (GET (with_getEntity sample_env
                     (Throw (ThrownError "Error" "Unauthorized: entity of another tenant")))
                  (request_with_query []) entity_42) =
    Ok {| status := 404; body := error_body "Not found or unauthorized" |}.
Proof.
  exact (get_domain_error_by_marker
           (with_getEntity sample_env
              (Throw (ThrownError "Error" "Unauthorized: entity of another tenant")))
           (request_with_query []) entity_42 alice "user-1" acme
           "Error" "Unauthorized: entity of another tenant"
           eq_refl eq_refl eq_refl eq_refl).
Defined.

(** C1, as stated, fails: the domain reports the entity missing with the
    message "Entity not found", and GET answers 500, not 404. *)
Lemma get_entity_not_found_is_500 :
  let env := with_getEntity sample_env (Throw (ThrownError "Error" "Entity not found")) in
  env_getServerSession env = Ok alice /\
  authenticated alice = Some "user-1" /\
  env_getEntity env "tenant-1" "42" = Throw (ThrownError "Error" "Entity not found") /\
  outcome_of (GET env (request_with_query []) entity_42) =
    Ok {| status := 500; body := error_body "Internal server error" |} /\
  outcome_of (GET env (request_with_query []) entity_42) <>
    Ok {| status := 404; body := error_body "Not found or unauthorized" |}.
Proof.
  cbv zeta. repeat split; try reflexivity.
  vm_compute. discriminate.
Qed.

(** ** DELETE: archive or delete *)

(** The trace of an authenticated DELETE whose tenant is resolved, up to the
    answer of the domain call. *)
Lemma delete_trace_prefix (env : Env) (request : NextRequest) (params : Params)
    (session : option Session) (uid : string) (ctx : TenantContext) :
  env_getServerSession env = Ok session ->
  authenticated session = Some uid ->
  env_getContext env = Ok ctx ->
  exists rest,
    trace_of (DELETE env request params) =
      EvGetServerSession :: EvGetContext ::
      (if is_true_string (searchParams_get (searchParams request) "permanent")
       then EvDeleteEntity (tenantId ctx) (id params) uid
       else EvArchiveEntity (tenantId ctx) (id params) uid) :: rest /\
    forallb (fun ev => negb (is_domain_call ev)) rest = true.
Proof.
  intros Hs Ha Hc.
  unfold_route. rewrite Hs. cbn [bind]. rewrite Ha, Hc. cbn [bind].
  destruct (is_true_string (searchParams_get (searchParams request) "permanent")).
  - destruct (env_deleteEntity env (tenantId ctx) (id params) uid) as [[]|e];
      cbn [bind try_catch]; [eexists; split; reflexivity|].
    destruct (is_unauthorized env e); eexists; split; reflexivity.
  - destruct (env_archiveEntity env (tenantId ctx) (id params) uid) as [[]|e];
      cbn [bind try_catch]; [eexists; split; reflexivity|].
    destruct (is_unauthorized env e); eexists; split; reflexivity.
Qed.

Lemma no_domain_call_in (rest : list Event) (ev : Event) :
  forallb (fun ev => negb (is_domain_call ev)) rest = true ->
  In ev rest -> is_domain_call ev = false.
Proof.
  intros Hall Hin. rewrite forallb_forall in Hall.
  apply Hall in Hin. now apply negb_true_iff in Hin.
Qed.

(** C4. For an authenticated DELETE whose tenant is resolved: with
    [permanent=true] the service's [deleteEntity] is called and
    [archiveEntity] is not, and when it succeeds the response is 200 with
    message "Entity deleted"; without a [permanent] parameter [archiveEntity]
    is called and [deleteEntity] is not, and when it succeeds the response is
    200 with message "Entity archived". *)
Theorem delete_permanent_or_archive (env : Env) (request : NextRequest) (params : Params)
    (session : option Session) (uid : string) (ctx : TenantContext) :
  env_getServerSession env = Ok session ->
  authenticated session = Some uid ->
  env_getContext env = Ok ctx ->
  let trace := trace_of (DELETE env request params) in
  (searchParams_get (searchParams request) "permanent" = Some "true" ->
     In (EvDeleteEntity (tenantId ctx) (id params) uid) trace /\
     existsb is_archive trace = false /\
     (env_deleteEntity env (tenantId ctx) (id params) uid = Ok tt ->
      outcome_of (DELETE env request params) =
        Ok {| status := 200; body := message_body "Entity deleted" |})) /\
  (searchParams_get (searchParams request) "permanent" = None ->
     In (EvArchiveEntity (tenantId ctx) (id params) uid) trace /\
     existsb is_delete trace = false /\
     (env_archiveEntity env (tenantId ctx) (id params) uid = Ok tt ->
      outcome_of (DELETE env request params) =
        Ok {| status := 200; body := message_body "Entity archived" |})).
Proof.
  intros Hs Ha Hc trace.
  destruct (delete_trace_prefix env request params session uid ctx Hs Ha Hc)
    as [rest [Htrace Hrest]].
  assert (Hno : forall p, (forall ev, p ev = true -> is_domain_call ev = true) ->
                          existsb p rest = false).
  { intros p Hp. apply not_true_is_false. intros Hex.
    apply existsb_exists in Hex. destruct Hex as [ev [Hin Hev]].
    apply Hp in Hev. rewrite (no_domain_call_in rest ev Hrest Hin) in Hev. discriminate. }
  subst trace. split; intros Hq; rewrite Htrace, Hq; cbn [is_true_string String.eqb];
    simpl (String.eqb _ _); cbn [existsb is_archive is_delete orb].
  - split; [right; right; left; reflexivity|]. split.
    + apply Hno. now intros [].
    + intros Hd. unfold_route. rewrite Hs. cbn [bind]. rewrite Ha, Hc. cbn [bind].
      rewrite Hq. simpl is_true_string. cbv iota. rewrite Hd. reflexivity.
  - split; [right; right; left; reflexivity|]. split.
    + apply Hno. now intros [].
    + intros Hd. unfold_route. rewrite Hs. cbn [bind]. rewrite Ha, Hc. cbn [bind].
      rewrite Hq. simpl is_true_string. cbv iota. rewrite Hd. reflexivity.
Qed.

Lemma delete_permanent_or_archive_witness :
  (let trace := trace_of (DELETE sample_env (request_with_query [("permanent", "true")]) entity_42) in
   In (EvDeleteEntity "tenant-1" "42" "user-1") trace /\
   existsb is_archive trace = false /\
   outcome_of (DELETE sample_env (request_with_query [("permanent", "true")]) entity_42) =
     Ok {| status := 200; body := message_body "Entity deleted" |}) /\
  (let trace := trace_of (DELETE sample_env (request_with_query []) entity_42) in
   In (EvArchiveEntity "tenant-1" "42" "user-1") trace /\
   existsb is_delete trace = false /\
   outcome_of (DELETE sample_env (request_with_query []) entity_42) =
     Ok {| status := 200; body := message_body "Entity archived" |}).
Proof.
  split.
  - destruct (delete_permanent_or_archive sample_env
                (request_with_query [("permanent", "true")]) entity_42
                alice "user-1" acme eq_refl eq_refl eq_refl) as [Hdel _].
    destruct (Hdel eq_refl) as [Hin [Hno Hok]].
    split; [exact Hin|]. split; [exact Hno|]. exact (Hok eq_refl).
  - destruct (delete_permanent_or_archive sample_env
                (request_with_query []) entity_42
                alice "user-1" acme eq_refl eq_refl eq_refl) as [_ Harch].
    destruct (Harch eq_refl) as [Hin [Hno Hok]].
    split; [exact Hin|]. split; [exact Hno|]. exact (Hok eq_refl).
Defined.

(** C8. For an authenticated DELETE whose tenant is resolved, the hard
    delete is called if and only if [searchParams.get("permanent")] is
    exactly the string "true"; for every other value, and when the parameter
    is absent, the archive operation is called and the hard delete is not. *)
Theorem delete_hard_iff_exact_true (env : Env) (request : NextRequest) (params : Params)
    (session : option Session) (uid : string) (ctx : TenantContext) :
  env_getServerSession env = Ok session ->
  authenticated session = Some uid ->
  env_getContext env = Ok ctx ->
  let trace := trace_of (DELETE env request params) in
  let permanent := searchParams_get (searchParams request) "permanent" in
  (existsb is_delete trace = true <-> permanent = Some "true") /\
  (permanent <> Some "true" ->
     In (EvArchiveEntity (tenantId ctx) (id params) uid) trace /\
     existsb is_delete trace = false) /\
  (permanent = Some "true" ->
     In (EvDeleteEntity (tenantId ctx) (id params) uid) trace /\
     existsb is_archive trace = false).
Proof.
  intros Hs Ha Hc trace permanent.
  destruct (delete_trace_prefix env request params session uid ctx Hs Ha Hc)
    as [rest [Htrace Hrest]].
  assert (Hno : forall p, (forall ev, p ev = true -> is_domain_call ev = true) ->
                          existsb p rest = false).
  { intros p Hp. apply not_true_is_false. intros Hex.
    apply existsb_exists in Hex. destruct Hex as [ev [Hin Hev]].
    apply Hp in Hev. rewrite (no_domain_call_in rest ev Hrest Hin) in Hev. discriminate. }
  assert (Hdel : existsb is_delete rest = false) by (apply Hno; now intros []).
  assert (Harch : existsb is_archive rest = false) by (apply Hno; now intros []).
  assert (Hflag : is_true_string permanent = true <-> permanent = Some "true").
  { unfold is_true_string. destruct permanent as [v|].
    - destruct (String.eqb_spec v "true") as [->|Hne]; split; intros H;
        try reflexivity; try discriminate. congruence.
    - split; discriminate. }
  subst trace. fold permanent in Htrace. rewrite Htrace.
  destruct (is_true_string permanent) eqn:Hp;
    cbn [existsb is_delete is_archive orb In]; rewrite ?Hdel, ?Harch.
  - pose proof (proj1 Hflag eq_refl) as Ht.
    repeat split; auto; try congruence.
  - assert (Hne : permanent <> Some "true").
    { intros H. apply (proj2 Hflag) in H. discriminate. }
    repeat split; auto; try congruence; intros H; try discriminate; contradiction.
Qed.

Lemma delete_hard_iff_exact_true_witness :
  let trace := trace_of (DELETE sample_env (request_with_query [("permanent", "TRUE")]) entity_42) in
  In (EvArchiveEntity "tenant-1" "42" "user-1") trace /\ existsb is_delete trace = false.
Proof.
  destruct (delete_hard_iff_exact_true sample_env
              (request_with_query [("permanent", "TRUE")]) entity_42
              alice "user-1" acme eq_refl eq_refl eq_refl) as [_ [Harch _]].
  apply Harch. simpl. discriminate.
Defined.

(** The values named by C8, and a repeated parameter: only the first value
    counts, and only the exact lower-case "true" selects the hard delete. *)
Example delete_flag_values :
  map (fun query => existsb is_delete
                      (trace_of (DELETE sample_env (request_with_query query) entity_42)))
      [ [("permanent", "true")]; [("permanent", "TRUE")]; [("permanent", "1")];
        [("permanent", "")]; []; [("permanent", "false"); ("permanent", "true")] ]
  = [true; false; false; false; false; false].
Proof. reflexivity. Qed.

(** ** Failures that nothing classifies *)

(** C5, as the code has it.  Whatever step of the try block throws, and
    whatever it throws, be it the entity service or any other collaborator: if
    the thrown value does not carry the "Unauthorized" marker (and, for
    PATCH, is not a [ZodError]), each handler writes the thrown value to the
    error log together with the entity id, and answers 500 with the body
    [{ error: "Internal server error" }], a response in which the thrown
    value does not occur. *)
Theorem unclassified_failure_is_500 (env : Env) (request : NextRequest) (params : Params) :
  (forall t e,
     GET_try env request params = (t, Throw e) ->
     is_unauthorized env e = false ->
     GET env request params =
       ((t ++ [EvLogError "Error fetching entity" e (id params); EvRespond internal_error])%list,
        Ok internal_error)) /\
  (forall t e,
     PATCH_try env request params = (t, Throw e) ->
     (forall issues, e <> ThrownZodError issues) ->
     is_unauthorized env e = false ->
     PATCH env request params =
       ((t ++ [EvLogError "Error updating entity" e (id params); EvRespond internal_error])%list,
        Ok internal_error)) /\
  (forall t e,
     DELETE_try env request params = (t, Throw e) ->
     is_unauthorized env e = false ->
     DELETE env request params =
       ((t ++ [EvLogError "Error deleting entity" e (id params); EvRespond internal_error])%list,
        Ok internal_error)).
Proof.
  repeat split; intros t e Htry.
  - intros Hun. unfold GET. rewrite Htry. unfold try_catch, GET_catch. rewrite Hun. reflexivity.
  - intros Hzod Hun. unfold PATCH. rewrite Htry. unfold try_catch, PATCH_catch.
    destruct e as [name message|issues|v]; [|now destruct (Hzod issues)|];
      rewrite Hun; reflexivity.
  - intros Hun. unfold DELETE. rewrite Htry. unfold try_catch, DELETE_catch. rewrite Hun. reflexivity.
Qed.

Lemma unclassified_failure_is_500_witness :
  GET failing_env (request_with_query []) entity_42 =
    ([EvGetServerSession; EvGetContext; EvGetEntity "tenant-1" "42";
      EvLogError "Error fetching entity" database_down "42"; EvRespond internal_error],
     Ok internal_error) /\
  PATCH failing_env (request_with_body (Ok (JObject [("legalForm", JString "LLC")]))) entity_42 =
    ([EvGetServerSession; EvGetContext; EvRequestJson;
      EvSchemaParse (JObject [("legalForm", JString "LLC")]);
      EvUpdateEntity "tenant-1" "42" "user-1" (JObject [("legalForm", JString "LLC")]);
      EvLogError "Error updating entity" database_down "42"; EvRespond internal_error],
     Ok internal_error) /\
  DELETE failing_env (request_with_query []) entity_42 =
    ([EvGetServerSession; EvGetContext; EvArchiveEntity "tenant-1" "42" "user-1";
      EvLogError "Error deleting entity" database_down "42"; EvRespond internal_error],
     Ok internal_error).
Proof.
  split; [|split].
  - exact (proj1 (unclassified_failure_is_500 failing_env (request_with_query []) entity_42)
             _ database_down eq_refl eq_refl).
  - refine (proj1 (proj2 (unclassified_failure_is_500 failing_env
             (request_with_body (Ok (JObject [("legalForm", JString "LLC")]))) entity_42))
             _ database_down eq_refl _ eq_refl).
    intros issues. discriminate.
  - exact (proj2 (proj2 (unclassified_failure_is_500 failing_env (request_with_query []) entity_42))
             _ database_down eq_refl eq_refl).
Defined.

(** C5, as stated, fails: the failure is not one of authentication, nor of
    validation, nor an error of the entity service (which is never called):
    the tenant context throws an [Error] whose message contains
    "Unauthorized".  Each handler answers 404 and writes nothing to the
    log. *)
Lemma tenant_failure_with_marker_is_404 :
  let r := {| status := 404; body := error_body "Not found or unauthorized" |} in
  let request := request_with_body (Ok (JObject [("legalForm", JString "LLC")])) in
  env_getServerSession tenantless_env = Ok alice /\
  authenticated alice = Some "user-1" /\
  env_getContext tenantless_env = Throw (ThrownError "Error" "Unauthorized: no tenant context") /\
  GET tenantless_env request entity_42 = ([EvGetServerSession; EvGetContext; EvRespond r], Ok r) /\
  PATCH tenantless_env request entity_42 = ([EvGetServerSession; EvGetContext; EvRespond r], Ok r) /\
  DELETE tenantless_env request entity_42 = ([EvGetServerSession; EvGetContext; EvRespond r], Ok r) /\
  outcome_of (GET tenantless_env request entity_42) <> Ok internal_error.
Proof.
  cbv zeta. repeat split; try reflexivity.
  vm_compute. discriminate.
Qed.

(** ** The update schema *)

Section SchemaFacts.

(** A valid outcome hands back the data it was given, with no issue. *)
Lemma _parse_valid (t : ZodType) (path : list string) (data v : JsValue)
    (issues : list ZodIssue) :
  _parse t path data = (VALID v, issues) -> v = data /\ issues = [].
Proof.
  revert data. induction t as [checks|values|inner IH]; intros data; cbn [_parse].
  - destruct data; try discriminate.
    destruct (flat_map (run_check path s) checks); [|discriminate].
    intros [= <- <-]. split; reflexivity.
  - destruct data; try discriminate.
    destruct (string_member s values); [|discriminate].
    intros [= <- <-]. split; reflexivity.
  - destruct data; try apply IH.
    intros [= <- <-]. split; reflexivity.
Qed.

(** An outcome that is not valid comes with at least one issue. *)
Lemma _parse_not_valid (t : ZodType) (path : list string) (data : JsValue)
    (st : ParseReturn) (issues : list ZodIssue) :
  _parse t path data = (st, issues) -> (forall v, st <> VALID v) -> issues <> [].
Proof.
  revert data. induction t as [checks|values|inner IH]; intros data; cbn [_parse].
  - destruct data; try (intros [= <- <-] _; discriminate).
    destruct (flat_map (run_check path s) checks) eqn:E.
    + intros [= <- <-] H. now destruct (H (JString s)).
    + intros [= <- <-] _. discriminate.
  - destruct data; try (intros [= <- <-] _; discriminate).
    destruct (string_member s values).
    + intros [= <- <-] H. now destruct (H (JString s)).
    + intros [= <- <-] _. discriminate.
  - destruct data; try apply IH.
    intros [= <- <-] H. now destruct (H JUndefined).
Qed.

(** Every issue is about the value at the path that was parsed. *)
Lemma _parse_issue_paths (t : ZodType) (path : list string) (data : JsValue) :
  Forall (fun i => issue_path i = path) (snd (_parse t path data)).
Proof.
  revert data. induction t as [checks|values|inner IH]; intros data; cbn [_parse].
  - destruct data; try (repeat constructor).
    assert (H : Forall (fun i => issue_path i = path) (flat_map (run_check path s) checks)).
    { apply Forall_flat_map. apply Forall_forall. intros c _.
      destruct c as [value|value]; cbn [run_check];
        [destruct (Nat.ltb (String.length s) value)|destruct (Nat.ltb value (String.length s))];
        repeat constructor. }
    destruct (flat_map (run_check path s) checks); [constructor|exact H].
  - destruct data; try (repeat constructor).
    destruct (string_member s values); repeat constructor.
  - destruct data; try apply IH. constructor.
Qed.

Variable props : list (string * JsValue).

Lemma parse_field_eq (key : string) (t : ZodType) :
  parse_field props (key, t) =
    (mkPair key (fst (_parse t [key] (property props key))) (has_property props key),
     snd (_parse t [key] (property props key))).
Proof.
  unfold parse_field. destruct (_parse t [key] (property props key)). reflexivity.
Qed.

(** What [set_key] adds is a property of the data, under a key of the shape. *)
Lemma set_key_adds (key : string) (value : JsValue) (acc : list (string * JsValue)) :
  value = property props key ->
  set_key (mkPair key (VALID value) (has_property props key)) value acc = acc \/
  (set_key (mkPair key (VALID value) (has_property props key)) value acc
     = (acc ++ [(key, value)])%list /\
   lookup props key = Some value).
Proof.
  intros ->. unfold set_key, property, has_property. cbn [pair_key alwaysSet].
  destruct (String.eqb key "__proto__"); cbn [negb andb]; [left; reflexivity|].
  destruct (lookup props key) as [v|]; cbn [is_undefined negb orb].
  - right. rewrite orb_true_r. split; reflexivity.
  - left. reflexivity.
Qed.

(** A valid merge: nothing was dirty, no field raised an issue, and the
    object is the accumulator followed by properties of the data whose keys
    are in the shape. *)
Lemma merge_valid (shape : ZodObject) :
  forall (dirty : bool) (acc : list (string * JsValue)) (v : JsValue),
    mergeObjectSync dirty acc (map fst (map (parse_field props) shape)) = VALID v ->
    dirty = false /\
    flat_map snd (map (parse_field props) shape) = [] /\
    exists added,
      v = JObject (acc ++ added) /\
      Forall (fun kv => In (fst kv) (map fst shape) /\ lookup props (fst kv) = Some (snd kv))
             added.
Proof.
  induction shape as [|[key t] shape IH]; intros dirty acc v; cbn [map mergeObjectSync flat_map].
  - destruct dirty; [discriminate|]. intros [= <-].
    split; [reflexivity|]. split; [reflexivity|].
    exists []. rewrite app_nil_r. split; [reflexivity|constructor].
  - rewrite parse_field_eq. cbn [fst snd pair_value].
    destruct (_parse t [key] (property props key)) as [st issues] eqn:E. cbn [fst snd].
    destruct st as [|value|value]; [discriminate| |].
    + intros H. apply IH in H. destruct H as [H _]. discriminate.
    + intros H. apply IH in H. destruct H as [Hd [Hiss [added [Hv Hadded]]]].
      apply _parse_valid in E. destruct E as [Hvalue ->].
      split; [exact Hd|]. split; [exact Hiss|].
      assert (Hweak : Forall (fun kv => In (fst kv) (map fst ((key, t) :: shape)) /\
                                        lookup props (fst kv) = Some (snd kv)) added).
      { eapply Forall_impl; [|exact Hadded]. intros kv [Hin Hl]. split; [right; exact Hin|exact Hl]. }
      destruct (set_key_adds key value acc Hvalue) as [Hsame|[Hadd Hl]].
      * rewrite Hsame in Hv. exists added. split; assumption.
      * rewrite Hadd, <- app_assoc in Hv. exists ((key, value) :: added).
        split; [exact Hv|]. constructor; [|exact Hweak].
        split; [left; reflexivity|exact Hl].
Qed.

(** A merge that is not valid: a value was dirty before, or a field raised
    an issue. *)
Lemma merge_not_valid (shape : ZodObject) :
  forall (dirty : bool) (acc : list (string * JsValue)),
    (forall v, mergeObjectSync dirty acc (map fst (map (parse_field props) shape)) <> VALID v) ->
    dirty = true \/ flat_map snd (map (parse_field props) shape) <> [].
Proof.
  induction shape as [|[key t] shape IH]; intros dirty acc; cbn [map mergeObjectSync flat_map].
  - destruct dirty; [left; reflexivity|]. intros H. now destruct (H (JObject acc)).
  - rewrite parse_field_eq. cbn [fst snd pair_value].
    destruct (_parse t [key] (property props key)) as [st issues] eqn:E. cbn [fst snd].
    assert (Hiss : (forall v, st <> VALID v) -> (issues ++ flat_map snd (map (parse_field props) shape))%list <> []).
    { intros Hst Hnil. apply app_eq_nil in Hnil. destruct Hnil as [Hnil _].
      exact (_parse_not_valid _ _ _ _ _ E Hst Hnil). }
    destruct st as [|value|value].
    + intros _. right. apply Hiss. discriminate.
    + intros _. right. apply Hiss. discriminate.
    + intros H. apply IH in H. destruct H as [H|H]; [left; exact H|].
      right. apply _parse_valid in E. destruct E as [_ ->]. exact H.
Qed.

(** The issues of an object all sit at a field of the shape. *)
Lemma field_issue_paths (shape : ZodObject) :
  Forall (fun i => exists key, issue_path i = [key] /\ In key (map fst shape))
         (flat_map snd (map (parse_field props) shape)).
Proof.
  induction shape as [|[key t] shape IH]; cbn [map flat_map]; [constructor|].
  apply Forall_app. split.
  - rewrite parse_field_eq. cbn [snd].
    eapply Forall_impl; [|apply _parse_issue_paths].
    intros i Hi. exists key. split; [exact Hi|left; reflexivity].
  - eapply Forall_impl; [|exact IH].
    intros i [k [Hp Hin]]. exists k. split; [exact Hp|right; exact Hin].
Qed.

End SchemaFacts.

(** A body the schema rejects is rejected with a [ZodError] that lists at
    least one issue; for an object, each issue is at a field of the shape. *)
Lemma schema_parse_throws (shape : ZodObject) (data : JsValue) (e : Thrown) :
  schema_parse shape data = Throw e ->
  exists issues,
    e = ThrownZodError issues /\ issues <> [] /\
    (forall props, data = JObject props ->
       Forall (fun i => exists key, issue_path i = [key] /\ In key (map fst shape)) issues).
Proof.
  unfold schema_parse.
  destruct (object_parse shape data) as [st issues] eqn:E.
  assert (Hiss : (forall v, st <> VALID v) -> issues <> []).
  { intros Hst. unfold object_parse in E. destruct data;
      try (injection E as <- <-; discriminate).
    injection E as <- <-.
    destruct (merge_not_valid props shape false [] Hst) as [H|H]; [discriminate|exact H]. }
  assert (Hpaths : forall props, data = JObject props ->
            Forall (fun i => exists key, issue_path i = [key] /\ In key (map fst shape)) issues).
  { intros props ->. cbn [object_parse] in E. injection E as _ <-. apply field_issue_paths. }
  destruct st as [|value|value].
  - destruct issues as [|i issues]; [now destruct Hiss|].
    intros [= <-]. exists (i :: issues). repeat split; [discriminate|exact Hpaths].
  - destruct issues as [|i issues]; [now destruct Hiss|].
    intros [= <-]. exists (i :: issues). repeat split; [discriminate|exact Hpaths].
  - discriminate.
Qed.

(** What the schema accepts is an object, and what it hands on is an object
    made of properties of the body whose keys are in the shape. *)
Lemma schema_parse_ok (shape : ZodObject) (data input : JsValue) :
  schema_parse shape data = Ok input ->
  exists props out,
    data = JObject props /\ input = JObject out /\
    Forall (fun kv => In (fst kv) (map fst shape) /\ lookup props (fst kv) = Some (snd kv)) out.
Proof.
  unfold schema_parse.
  destruct (object_parse shape data) as [st issues] eqn:E.
  destruct st as [|value|value]; try (destruct issues; discriminate).
  intros [= <-]. unfold object_parse in E.
  destruct data; try discriminate.
  injection E as E _. apply merge_valid in E.
  destruct E as [_ [_ [added [-> Hadded]]]].
  exists props, added. repeat split. exact Hadded.
Qed.

Lemma lookup_known_only (shape : ZodObject) (props : list (string * JsValue)) (key : string) :
  In key (map fst shape) ->
  lookup (known_only shape props) key = lookup props key.
Proof.
  intros Hin. induction props as [|[k v] props IH]; [reflexivity|].
  cbn [known_only filter fst lookup]. fold (known_only shape props).
  destruct (String.eqb_spec k key) as [->|Hne].
  - assert (Hm : string_member key (map fst shape) = true).
    { unfold string_member. apply existsb_exists. exists key.
      split; [exact Hin|apply String.eqb_refl]. }
    rewrite Hm. cbn [lookup]. rewrite String.eqb_refl. reflexivity.
  - destruct (string_member k (map fst shape)); [|exact IH].
    cbn [lookup]. destruct (String.eqb_spec k key); [contradiction|exact IH].
Qed.

(** Properties outside the shape have no part in the parse. *)
Lemma schema_parse_known_only (shape : ZodObject) (props : list (string * JsValue)) :
  schema_parse shape (JObject (known_only shape props)) = schema_parse shape (JObject props).
Proof.
  unfold schema_parse, object_parse.
  assert (H : map (parse_field (known_only shape props)) shape = map (parse_field props) shape).
  { apply map_ext_in. intros [key t] Hin.
    assert (Hkey : In key (map fst shape)) by (apply (in_map fst) in Hin; exact Hin).
    unfold parse_field, property, has_property.
    rewrite (lookup_known_only shape props key Hkey). reflexivity. }
  rewrite H. reflexivity.
Qed.

(** ** PATCH: validation *)

(** C3. For an authenticated PATCH whose tenant is resolved and whose body
    parses as JSON: if the body violates the update schema, the handler
    answers 400 with [{ error: "Validation error", details }], where the
    details are the issues of the schema (at least one; for an object body
    each is located at a field of the schema), and [updateEntity] is not
    called. *)
Theorem patch_invalid_body_is_400 (env : Env) (request : NextRequest) (params : Params)
    (session : option Session) (uid : string) (ctx : TenantContext)
    (data : JsValue) (e : Thrown) :
  env_getServerSession env = Ok session ->
  authenticated session = Some uid ->
  env_getContext env = Ok ctx ->
  request_json request = Ok data ->
  schema_parse updateEntitySchema data = Throw e ->
  exists issues,
    e = ThrownZodError issues /\ issues <> [] /\
    (forall props, data = JObject props ->
       Forall (fun i => exists key, issue_path i = [key] /\
                                    In key ["name"; "legalForm"; "status"; "activityCode"])
              issues) /\
    PATCH env request params =
      ([EvGetServerSession; EvGetContext; EvRequestJson; EvSchemaParse data;
        EvRespond {| status := 400; body := validation_body "Validation error" issues |}],
       Ok {| status := 400; body := validation_body "Validation error" issues |}) /\
    existsb is_update (trace_of (PATCH env request params)) = false.
Proof.
  intros Hs Ha Hc Hj Hp.
  destruct (schema_parse_throws _ _ _ Hp) as [issues [-> [Hne Hpaths]]].
  exists issues. split; [reflexivity|]. split; [exact Hne|]. split; [exact Hpaths|].
  assert (Hrun : PATCH env request params =
      ([EvGetServerSession; EvGetContext; EvRequestJson; EvSchemaParse data;
        EvRespond {| status := 400; body := validation_body "Validation error" issues |}],
       Ok {| status := 400; body := validation_body "Validation error" issues |})).
  { unfold_route. rewrite Hs. cbn [bind]. rewrite Ha, Hc. cbn [bind].
    rewrite Hj. cbn [bind]. rewrite Hp. reflexivity. }
  split; [exact Hrun|]. unfold trace_of. rewrite Hrun. reflexivity.
Qed.

(** The two bodies named by C3: an empty name breaks the length constraint
    of [name], and "DELETED" is not a value of the [status] enum. *)
Lemma patch_invalid_body_is_400_witness :
  (let issues := [too_small 1 ["name"]] in
   PATCH sample_env (request_with_body (Ok (JObject [("name", JString "")]))) entity_42 =
     ([EvGetServerSession; EvGetContext; EvRequestJson;
       EvSchemaParse (JObject [("name", JString "")]);
       EvRespond {| status := 400; body := validation_body "Validation error" issues |}],
      Ok {| status := 400; body := validation_body "Validation error" issues |})) /\
  (let issues := [invalid_enum_value "DELETED" ["ACTIVE"; "PENDING"; "ARCHIVED"; "SUSPENDED"]
                                     ["status"]] in
   PATCH sample_env (request_with_body (Ok (JObject [("status", JString "DELETED")]))) entity_42 =
     ([EvGetServerSession; EvGetContext; EvRequestJson;
       EvSchemaParse (JObject [("status", JString "DELETED")]);
       EvRespond {| status := 400; body := validation_body "Validation error" issues |}],
      Ok {| status := 400; body := validation_body "Validation error" issues |})).
Proof.
  split.
  - destruct (patch_invalid_body_is_400 sample_env
                (request_with_body (Ok (JObject [("name", JString "")]))) entity_42
                alice "user-1" acme (JObject [("name", JString "")])
                (ThrownZodError [too_small 1 ["name"]])
                eq_refl eq_refl eq_refl eq_refl eq_refl) as [issues [He [_ [_ [Hrun _]]]]].
    injection He as <-. exact Hrun.
  - destruct (patch_invalid_body_is_400 sample_env
                (request_with_body (Ok (JObject [("status", JString "DELETED")]))) entity_42
                alice "user-1" acme (JObject [("status", JString "DELETED")])
                (ThrownZodError [invalid_enum_value "DELETED"
                                   ["ACTIVE"; "PENDING"; "ARCHIVED"; "SUSPENDED"] ["status"]])
                eq_refl eq_refl eq_refl eq_refl eq_refl) as [issues [He [_ [_ [Hrun _]]]]].
    injection He as <-. exact Hrun.
Defined.

(** C10. For an authenticated PATCH whose tenant is resolved and whose body
    is an object: keys outside the schema do not make validation fail (the
    body is accepted exactly when its known fields alone are, with the same
    result), and the input handed to [updateEntity] holds only properties of
    the body under the schema's four keys. *)
Theorem patch_unknown_keys_stripped (env : Env) (request : NextRequest) (params : Params)
    (session : option Session) (uid : string) (ctx : TenantContext)
    (props : list (string * JsValue)) (input : JsValue) :
  env_getServerSession env = Ok session ->
  authenticated session = Some uid ->
  env_getContext env = Ok ctx ->
  request_json request = Ok (JObject props) ->
  schema_parse updateEntitySchema (JObject (known_only updateEntitySchema props)) = Ok input ->
  schema_parse updateEntitySchema (JObject props) = Ok input /\
  (exists out,
     input = JObject out /\
     Forall (fun kv => In (fst kv) ["name"; "legalForm"; "status"; "activityCode"] /\
                       lookup props (fst kv) = Some (snd kv)) out) /\
  exists rest,
    trace_of (PATCH env request params) =
      EvGetServerSession :: EvGetContext :: EvRequestJson :: EvSchemaParse (JObject props) ::
      EvUpdateEntity (tenantId ctx) (id params) uid input :: rest /\
    existsb is_update rest = false.
Proof.
  intros Hs Ha Hc Hj Hk.
  rewrite schema_parse_known_only in Hk.
  split; [exact Hk|]. split.
  - destruct (schema_parse_ok _ _ _ Hk) as [props' [out [Hd [-> Hout]]]].
    injection Hd as <-. exists out. split; [reflexivity|exact Hout].
  - unfold_route. rewrite Hs. cbn [bind]. rewrite Ha, Hc. cbn [bind].
    rewrite Hj. cbn [bind]. rewrite Hk. cbn [bind].
    destruct (env_updateEntity env (tenantId ctx) (id params) uid input) as [u|e];
      cbn [bind try_catch].
    + destruct u; eexists; split; reflexivity.
    + destruct e; cbn [is_unauthorized];
        try match goal with |- context [includes ?m ?s] => destruct (includes m s) end;
        eexists; split; reflexivity.
Qed.

Lemma patch_unknown_keys_stripped_witness :
  let props := [("legalForm", JString "LLC"); ("isAdmin", JBool true); ("tenantId", JString "other")] in
  let input := JObject [("legalForm", JString "LLC")] in
  schema_parse updateEntitySchema (JObject props) = Ok input /\
  exists rest,
    trace_of (PATCH sample_env (request_with_body (Ok (JObject props))) entity_42) =
      EvGetServerSession :: EvGetContext :: EvRequestJson :: EvSchemaParse (JObject props) ::
      EvUpdateEntity "tenant-1" "42" "user-1" input :: rest /\
    existsb is_update rest = false.
Proof.
  intros props input.
  destruct (patch_unknown_keys_stripped sample_env
              (request_with_body (Ok (JObject props))) entity_42
              alice "user-1" acme props input
              eq_refl eq_refl eq_refl eq_refl eq_refl) as [Hparse [_ Htrace]].
  split; [exact Hparse|exact Htrace].
Defined.

(** ** Success envelopes *)

(** C6. For an authenticated request whose tenant is resolved: when
    [getEntity] returns [e], GET answers 200 with [{ success: true, data: e }];
    and for the PATCH body [{ legalForm: "LLC" }], [updateEntity] receives an
    input whose only property is [legalForm = "LLC"], and when it returns the
    updated entity [u], PATCH logs the update with the entity's id and answers
    200 with [{ success: true, data: u }]. *)
Theorem success_envelopes (env : Env) (request : NextRequest) (params : Params)
    (session : option Session) (uid : string) (ctx : TenantContext) :
  env_getServerSession env = Ok session ->
  authenticated session = Some uid ->
  env_getContext env = Ok ctx ->
  (forall e,
     env_getEntity env (tenantId ctx) (id params) = Ok e ->
     GET env request params =
       ([EvGetServerSession; EvGetContext; EvGetEntity (tenantId ctx) (id params);
         EvRespond {| status := 200; body := data_body e |}],
        Ok {| status := 200; body := data_body e |})) /\
  (forall u,
     let data := JObject [("legalForm", JString "LLC")] in
     let input := JObject [("legalForm", JString "LLC")] in
     request_json request = Ok data ->
     env_updateEntity env (tenantId ctx) (id params) uid input = Ok u ->
     nullish u = false ->
     PATCH env request params =
       ([EvGetServerSession; EvGetContext; EvRequestJson; EvSchemaParse data;
         EvUpdateEntity (tenantId ctx) (id params) uid input;
         EvLogInfo "Entity updated successfully" [("entityId", member u "id")];
         EvRespond {| status := 200; body := data_body u |}],
        Ok {| status := 200; body := data_body u |}) /\
     schema_parse updateEntitySchema data = Ok input /\
     map (has_property [("legalForm", JString "LLC")])
         ["name"; "legalForm"; "status"; "activityCode"] = [false; true; false; false]).
Proof.
  intros Hs Ha Hc. split.
  - intros e He. unfold_route. rewrite Hs. cbn [bind]. rewrite Ha, Hc. cbn [bind].
    rewrite He. reflexivity.
  - intros u data input Hj Hu Hnull. split; [|split; reflexivity].
    unfold_route. rewrite Hs. cbn [bind]. rewrite Ha, Hc. cbn [bind].
    rewrite Hj. cbn [bind].
    change (schema_parse updateEntitySchema data) with (@Ok JsValue input).
    cbn [bind]. rewrite Hu. cbn [bind]. unfold read_id. rewrite Hnull. reflexivity.
Qed.

Lemma success_envelopes_witness :
  GET sample_env (request_with_body (Ok (JObject [("legalForm", JString "LLC")]))) entity_42 =
    ([EvGetServerSession; EvGetContext; EvGetEntity "tenant-1" "42";
      EvRespond {| status := 200; body := data_body acme_ltd |}],
     Ok {| status := 200; body := data_body acme_ltd |}) /\
  PATCH sample_env (request_with_body (Ok (JObject [("legalForm", JString "LLC")]))) entity_42 =
    ([EvGetServerSession; EvGetContext; EvRequestJson;
      EvSchemaParse (JObject [("legalForm", JString "LLC")]);
      EvUpdateEntity "tenant-1" "42" "user-1" (JObject [("legalForm", JString "LLC")]);
      EvLogInfo "Entity updated successfully" [("entityId", JString "42")];
      EvRespond {| status := 200; body := data_body acme_ltd |}],
     Ok {| status := 200; body := data_body acme_ltd |}).
Proof.
  destruct (success_envelopes sample_env
              (request_with_body (Ok (JObject [("legalForm", JString "LLC")]))) entity_42
              alice "user-1" acme eq_refl eq_refl eq_refl) as [Hget Hpatch].
  split.
  - exact (Hget acme_ltd eq_refl).
  - exact (proj1 (Hpatch acme_ltd eq_refl eq_refl eq_refl)).
Defined.

(** ** PATCH: a body that is not JSON *)

(** C9, as the code has it.  For an authenticated PATCH whose tenant is
    resolved and whose body is not JSON, so that [request.json()] throws a
    SyntaxError: the schema is not run and [updateEntity] is not called; the
    answer is 500 with [{ error: "Internal server error" }] when the
    SyntaxError's message does not contain "Unauthorized", and 404 with
    [{ error: "Not found or unauthorized" }] when it does; it is never the
    400 of a validation error. *)
Theorem patch_body_not_json (env : Env) (request : NextRequest) (params : Params)
    (session : option Session) (uid : string) (ctx : TenantContext) (message : string) :
  env_getServerSession env = Ok session ->
  authenticated session = Some uid ->
  env_getContext env = Ok ctx ->
  request_json request = Throw (ThrownError "SyntaxError" message) ->
  let trace := trace_of (PATCH env request params) in
  existsb is_schema_parse trace = false /\
  existsb is_update trace = false /\
  outcome_of (PATCH env request params) =
    Ok (if includes message "Unauthorized"
        then {| status := 404; body := error_body "Not found or unauthorized" |}
        else internal_error) /\
  (forall r, outcome_of (PATCH env request params) = Ok r -> status r <> 400).
Proof.
  intros Hs Ha Hc Hj.
  unfold_route. rewrite Hs. cbn [bind]. rewrite Ha, Hc. cbn [bind].
  rewrite Hj. cbn [bind try_catch is_unauthorized].
  destruct (includes message "Unauthorized"); cbn [fst snd];
    (repeat split; try reflexivity; intros r [= <-]; discriminate).
Qed.

Lemma patch_body_not_json_witness :
  outcome_of (PATCH sample_env
                (request_with_body (Throw (ThrownError "SyntaxError"
                                             "Unexpected end of JSON input")))
                entity_42) = Ok internal_error.
Proof.
  exact (proj1 (proj2 (proj2
           (patch_body_not_json sample_env
              (request_with_body (Throw (ThrownError "SyntaxError"
                                           "Unexpected end of JSON input")))
              entity_42 alice "user-1" acme "Unexpected end of JSON input"
              eq_refl eq_refl eq_refl eq_refl)))).
Defined.

(** C9, as stated, fails: for the raw body [Unauthorized], which is not
    JSON, the SyntaxError's message quotes the body, and PATCH answers 404. *)
Lemma patch_body_not_json_is_404 :
  let request := request_with_body (Throw (ThrownError "SyntaxError" not_json_message)) in
  env_getServerSession sample_env = Ok alice /\
  authenticated alice = Some "user-1" /\
  env_getContext sample_env = Ok acme /\
  PATCH sample_env request entity_42 =
    ([EvGetServerSession; EvGetContext; EvRequestJson;
      EvRespond {| status := 404; body := error_body "Not found or unauthorized" |}],
     Ok {| status := 404; body := error_body "Not found or unauthorized" |}) /\
  outcome_of (PATCH sample_env request entity_42) <> Ok internal_error.
Proof.
  cbv zeta. repeat split; try reflexivity.
  vm_compute. discriminate.
Qed.

(** ** The order of the steps *)

Ltac next_case :=
  match goal with
  | |- context [env_getServerSession ?e] => destruct (env_getServerSession e) eqn:?
  | |- context [authenticated ?s] => destruct (authenticated s) eqn:?
  | |- context [env_getContext ?e] => destruct (env_getContext e) eqn:?
  | |- context [request_json ?r] => destruct (request_json r) eqn:?
  | |- context [schema_parse ?sh ?d] => destruct (schema_parse sh d) eqn:?
  | |- context [env_getEntity ?e ?a ?b] => destruct (env_getEntity e a b) eqn:?
  | |- context [env_updateEntity ?e ?a ?b ?c ?d] => destruct (env_updateEntity e a b c d) eqn:?
  | |- context [is_true_string ?v] => destruct (is_true_string v) eqn:?
  | |- context [env_deleteEntity ?e ?a ?b ?c] => destruct (env_deleteEntity e a b c) eqn:?
  | |- context [env_archiveEntity ?e ?a ?b ?c] => destruct (env_archiveEntity e a b c) eqn:?
  | |- context [nullish ?u] => destruct (nullish u) eqn:?
  | |- context [PATCH_catch _ _ ?e] =>
      destruct e; cbn [PATCH_catch]; unfold logger_error, NextResponse_json, call, emit
  | |- context [is_unauthorized ?e ?x] => destruct (is_unauthorized e x) eqn:?
  end;
  cbn [bind try_catch ret fst snd].

Ltac in_sequence_case :=
  unfold in_sequence, in_order, trace_of, outcome_of; cbn [fst snd app];
  split; [repeat (constructor; cbn [phase])|];
  split; [reflexivity|];
  split; [eexists; split; reflexivity|];
  split;
  [ intros Hin; cbn [In] in Hin; unfold signed_in;
    repeat (destruct Hin as [Hin|Hin]; try discriminate Hin); try contradiction; eauto
  | intros ev Hin Hdom; cbn [In] in Hin;
    repeat (destruct Hin as [Hin|Hin]; try (subst ev; cbn in Hdom; try discriminate Hdom));
    try contradiction;
    unfold signed_in, tenant_resolved, validated;
    (split; [eauto|split; [eauto|]]); intros Hup; try discriminate Hup;
    do 5 eexists; eauto ].

Ltac unfold_try :=
  unfold GET, PATCH, DELETE, GET_try, PATCH_try, DELETE_try, GET_catch, DELETE_catch, read_id,
    getServerSession, tenantContext_getContext, json, updateEntitySchema_parse,
    getEntity, updateEntity, deleteEntity, archiveEntity,
    logger_info, logger_error, NextResponse_json, call, emit.

Lemma GET_in_sequence (env : Env) (request : NextRequest) (params : Params) :
  in_sequence env request (GET env request params).
Proof.
  unfold_try. repeat next_case; in_sequence_case.
Qed.

Lemma PATCH_in_sequence (env : Env) (request : NextRequest) (params : Params) :
  in_sequence env request (PATCH env request params).
Proof.
  unfold_try. repeat next_case; in_sequence_case.
Qed.

Lemma DELETE_in_sequence (env : Env) (request : NextRequest) (params : Params) :
  in_sequence env request (DELETE env request params).
Proof.
  unfold_try. repeat next_case; in_sequence_case.
Qed.

(** C7. For one request, each handler takes its steps in the order session
    lookup, tenant resolution, (for PATCH) body parsing and validation, domain
    call, response: the tenant is never resolved for a caller who fails the
    session check, and no domain operation is called before the session
    check has succeeded, the tenant is resolved and, for the update, the
    schema has accepted the body. *)
Theorem steps_in_sequence (env : Env) (request : NextRequest) (params : Params) :
  in_sequence env request (GET env request params) /\
  in_sequence env request (PATCH env request params) /\
  in_sequence env request (DELETE env request params).
Proof.
  split; [apply GET_in_sequence|].
  split; [apply PATCH_in_sequence|apply DELETE_in_sequence].
Qed.

(** A caller without a session: the lookup and the response, nothing between. *)
Example steps_without_session :
  map (fun handler => trace_of (handler (with_session sample_env (Ok None))
                                  (request_with_query [("permanent", "true")]) entity_42))
      [GET; PATCH; DELETE]
  = let r := {| status := 401; body := error_body "Unauthorized" |} in
    [ [EvGetServerSession; EvRespond r]; [EvGetServerSession; EvRespond r];
      [EvGetServerSession; EvRespond r] ].
Proof. reflexivity. Qed.

Lemma steps_in_sequence_witness :
  let request := request_with_body (Ok (JObject [("legalForm", JString "LLC")])) in
  let ev := EvUpdateEntity "tenant-1" "42" "user-1" (JObject [("legalForm", JString "LLC")]) in
  in_order (trace_of (PATCH sample_env request entity_42)) /\
  signed_in sample_env /\ tenant_resolved sample_env /\ validated request ev.
Proof.
  intros request ev.
  destruct (steps_in_sequence sample_env request entity_42)
    as [_ [[Horder [_ [_ [_ Hdomain]]]] _]].
  split; [exact Horder|].
  destruct (Hdomain ev) as [Hs [Hc Hv]].
  - right; right; right; right; left; reflexivity.
  - reflexivity.
  - split; [exact Hs|]. split; [exact Hc|]. apply Hv. reflexivity.
Defined.

(** * Further properties of the route *)

(** ** The marker test *)

Lemma prefix_split (sub s : string) :
  String.prefix sub s = true -> exists post, s = sub ++ post.
Proof.
  revert s. induction sub as [|c sub IH]; intros s.
  - intros _. exists s. reflexivity.
  - destruct s as [|d s]; cbn [String.prefix]; [intros H; discriminate H|].
    destruct (Ascii.ascii_dec c d) as [->|]; [|intros H; discriminate H].
    intros H. destruct (IH s H) as [post ->]. exists post. reflexivity.
Qed.

Lemma prefix_app (sub post : string) : String.prefix sub (sub ++ post) = true.
Proof.
  induction sub as [|c sub IH]; cbn [String.append].
  - destruct post; reflexivity.
  - cbn [String.prefix]. destruct (Ascii.ascii_dec c c) as [_|Hne]; [exact IH|now destruct Hne].
Qed.

(** [includes] is the substring test. *)
Lemma includes_spec (s sub : string) :
  includes s sub = true <-> exists pre post, s = pre ++ sub ++ post.
Proof.
  split.
  - induction s as [|c s IH]; cbn [includes].
    + rewrite orb_false_r. intros H. destruct (prefix_split _ _ H) as [post Hs].
      exists "", post. exact Hs.
    + intros H. apply orb_true_iff in H. destruct H as [H|H].
      * destruct (prefix_split _ _ H) as [post Hs]. exists "", post. exact Hs.
      * destruct (IH H) as [pre [post ->]]. exists (String c pre), post. reflexivity.
  - intros [pre [post ->]]. induction pre as [|c pre IH].
    + cbn [String.append]. destruct (sub ++ post) eqn:E; cbn [includes];
        rewrite <- E, prefix_app; reflexivity.
    + cbn [String.append includes]. rewrite IH. apply orb_true_r.
Qed.

(** ** What the catch clauses do with each kind of thrown value *)



(** X3. In PATCH the [ZodError] test comes first: a [ZodError] thrown at any
    step of the try block, also by the service and also when its message
    contains "Unauthorized", is answered 400 with its issues as details, and
    is not logged. *)
Theorem patch_zod_error_is_400 (env : Env) (request : NextRequest) (params : Params)
    (t : list Event) (issues : list ZodIssue) :
  PATCH_try env request params = (t, Throw (ThrownZodError issues)) ->
  PATCH env request params =
    ((t ++ [EvRespond (validation_error issues)])%list, Ok (validation_error issues)).
Proof.
  intros Htry. unfold PATCH. rewrite Htry. reflexivity.
Qed.

Lemma patch_zod_error_is_400_witness :
  is_unauthorized rejecting_env (ThrownZodError service_issues) = true /\
  PATCH rejecting_env (request_with_body (Ok (JObject [("legalForm", JString "LLC")])))
        entity_42 =
    ([EvGetServerSession; EvGetContext; EvRequestJson;
      EvSchemaParse (JObject [("legalForm", JString "LLC")]);
      EvUpdateEntity "tenant-1" "42" "user-1" (JObject [("legalForm", JString "LLC")]);
      EvRespond (validation_error service_issues)],
     Ok (validation_error service_issues)).
Proof.
  split; [reflexivity|].
  exact (patch_zod_error_is_400 rejecting_env
           (request_with_body (Ok (JObject [("legalForm", JString "LLC")]))) entity_42
           [EvGetServerSession; EvGetContext; EvRequestJson;
            EvSchemaParse (JObject [("legalForm", JString "LLC")]);
            EvUpdateEntity "tenant-1" "42" "user-1" (JObject [("legalForm", JString "LLC")])]
           service_issues eq_refl).
Defined.

(** X4. When [updateEntity] resolves to null or undefined, PATCH has made
    the update call, but reading [entity.id] for the log line throws a
    TypeError: the answer is 500 and the TypeError is what is logged. *)
Theorem patch_null_entity_is_500 (env : Env) (request : NextRequest) (params : Params)
    (session : option Session) (uid : string) (ctx : TenantContext)
    (data input u : JsValue) :
  env_getServerSession env = Ok session ->
  authenticated session = Some uid ->
  env_getContext env = Ok ctx ->
  request_json request = Ok data ->
  schema_parse updateEntitySchema data = Ok input ->
  env_updateEntity env (tenantId ctx) (id params) uid input = Ok u ->
  nullish u = true ->
  exists message,
    PATCH env request params =
      ([EvGetServerSession; EvGetContext; EvRequestJson; EvSchemaParse data;
        EvUpdateEntity (tenantId ctx) (id params) uid input;
        EvLogError "Error updating entity" (ThrownError "TypeError" message) (id params);
        EvRespond internal_error],
       Ok internal_error).
Proof.
  intros Hs Ha Hc Hj Hp Hu Hnull.
  unfold_route. rewrite Hs. cbn [bind]. rewrite Ha, Hc. cbn [bind].
  rewrite Hj. cbn [bind]. rewrite Hp. cbn [bind]. rewrite Hu. cbn [bind].
  destruct u; try discriminate Hnull; eexists; reflexivity.
Qed.

Lemma patch_null_entity_is_500_witness :
  exists message,
    PATCH null_env (request_with_body (Ok (JObject [("legalForm", JString "LLC")]))) entity_42 =
      ([EvGetServerSession; EvGetContext; EvRequestJson;
        EvSchemaParse (JObject [("legalForm", JString "LLC")]);
        EvUpdateEntity "tenant-1" "42" "user-1" (JObject [("legalForm", JString "LLC")]);
        EvLogError "Error updating entity" (ThrownError "TypeError" message) "42";
        EvRespond internal_error],
       Ok internal_error).
Proof.
  exact (patch_null_entity_is_500 null_env
           (request_with_body (Ok (JObject [("legalForm", JString "LLC")]))) entity_42
           alice "user-1" acme (JObject [("legalForm", JString "LLC")])
           (JObject [("legalForm", JString "LLC")]) JNull
           eq_refl eq_refl eq_refl eq_refl eq_refl eq_refl eq_refl).
Defined.

(** ** What a response tells about the request *)

Ltac all_cases := unfold_try; repeat next_case; unfold outcome_of, trace_of; cbn [fst snd app].

(** X5. A handler answers 200 only when the domain operation succeeded: for
    GET the data is the entity [getEntity] returned; for PATCH the body
    passed the schema, [updateEntity] was given the validated input and the
    data is what it returned; for DELETE the operation selected by the
    [permanent] flag returned, and the message names that operation. *)
Theorem success_means_domain_success (env : Env) (request : NextRequest) (params : Params)
    (r : Response) :
  status r = 200 ->
  (outcome_of (GET env request params) = Ok r ->
   exists session uid ctx e,
     env_getServerSession env = Ok session /\ authenticated session = Some uid /\
     env_getContext env = Ok ctx /\
     env_getEntity env (tenantId ctx) (id params) = Ok e /\
     r = {| status := 200; body := data_body e |}) /\
  (outcome_of (PATCH env request params) = Ok r ->
   exists session uid ctx data input u,
     env_getServerSession env = Ok session /\ authenticated session = Some uid /\
     env_getContext env = Ok ctx /\
     request_json request = Ok data /\
     schema_parse updateEntitySchema data = Ok input /\
     env_updateEntity env (tenantId ctx) (id params) uid input = Ok u /\
     nullish u = false /\
     r = {| status := 200; body := data_body u |}) /\
  (outcome_of (DELETE env request params) = Ok r ->
   exists session uid ctx done,
     env_getServerSession env = Ok session /\ authenticated session = Some uid /\
     env_getContext env = Ok ctx /\
     let permanent := is_true_string (searchParams_get (searchParams request) "permanent") in
     (if permanent
      then env_deleteEntity env (tenantId ctx) (id params) uid
      else env_archiveEntity env (tenantId ctx) (id params) uid) = Ok done /\
     r = {| status := 200;
            body := message_body (if permanent then "Entity deleted" else "Entity archived") |}).
Proof.
  intros Hst. split; [|split].
  - all_cases; intros [= <-]; try discriminate Hst.
    do 4 eexists. repeat split; eauto.
  - all_cases; intros [= <-]; try discriminate Hst.
    do 6 eexists. repeat split; eauto.
  - all_cases; intros [= <-]; try discriminate Hst;
      do 4 eexists; repeat split; eauto.
Qed.

Lemma success_means_domain_success_witness :
  exists ctx e,
    env_getContext sample_env = Ok ctx /\
    env_getEntity sample_env (tenantId ctx) "42" = Ok e /\
    {| status := 200; body := data_body acme_ltd |} = {| status := 200; body := data_body e |}.
Proof.
  destruct (proj1 (success_means_domain_success sample_env (request_with_query []) entity_42
                     {| status := 200; body := data_body acme_ltd |} eq_refl) eq_refl)
    as [session [uid [ctx [e [_ [_ [Hc [He Hr]]]]]]]].
  exists ctx, e. split; [exact Hc|]. split; [exact He|exact Hr].
Defined.

(** X6. A handler answers 401 exactly when the session lookup resolved to a
    session without a usable user id, and then the body is
    [{ error: "Unauthorized" }]: no failure of the tenant context, of the
    body or of the service is ever reported as 401. *)
Theorem status_401_iff_not_signed_in (env : Env) (request : NextRequest) (params : Params)
    (handler : Env -> NextRequest -> Params -> M Response) (r : Response) :
  In handler [GET; PATCH; DELETE] ->
  outcome_of (handler env request params) = Ok r ->
  (status r = 401 <->
   exists session, env_getServerSession env = Ok session /\ authenticated session = None) /\
  (status r = 401 -> r = unauthorized).
Proof.
  intros Hin.
  assert (Hh : handler = GET \/ handler = PATCH \/ handler = DELETE).
  { cbn [In] in Hin. intuition auto. }
  clear Hin. destruct Hh as [ -> | [ -> | -> ] ];
    all_cases; intros [= <-];
    (split; [split; [intros Hst; try discriminate Hst; eauto
                    |intros [session' [H1 H2]]; try reflexivity; congruence]
            |intros Hst; try discriminate Hst; reflexivity]).
Qed.

Lemma status_401_iff_not_signed_in_witness :
  status internal_error = 401 <->
  exists session, env_getServerSession failing_env = Ok session /\ authenticated session = None.
Proof.
  exact (proj1 (status_401_iff_not_signed_in failing_env (request_with_query []) entity_42
                  DELETE internal_error (or_intror (or_intror (or_introl eq_refl))) eq_refl)).
Defined.

(** X7. What each handler can answer.  The error bodies are the constants
    of the source; only a 200 carries data from the service and only PATCH's
    400 carries validation details.  GET and DELETE never answer 400. *)
Theorem responses_are_one_of (env : Env) (request : NextRequest) (params : Params) :
  (exists r, outcome_of (GET env request params) = Ok r /\
     (r = unauthorized \/ r = not_found \/ r = internal_error \/
      exists e, r = {| status := 200; body := data_body e |})) /\
  (exists r, outcome_of (PATCH env request params) = Ok r /\
     (r = unauthorized \/ r = not_found \/ r = internal_error \/
      (exists issues, r = validation_error issues) \/
      exists u, r = {| status := 200; body := data_body u |})) /\
  (exists r, outcome_of (DELETE env request params) = Ok r /\
     (r = unauthorized \/ r = not_found \/ r = internal_error \/
      r = {| status := 200; body := message_body "Entity deleted" |} \/
      r = {| status := 200; body := message_body "Entity archived" |})).
Proof.
  split; [|split]; all_cases; eexists; (split; [reflexivity|]);
    first [ left; reflexivity
          | right; left; reflexivity
          | right; right; left; reflexivity
          | right; right; right; left; reflexivity
          | right; right; right; left; eexists; reflexivity
          | right; right; right; right; reflexivity
          | right; right; right; eexists; reflexivity
          | right; right; right; right; eexists; reflexivity ].
Qed.

Lemma is_unauthorized_spec (env : Env) (e : Thrown) :
  is_unauthorized env e = true <-> carries_marker env e.
Proof.
  destruct e as [name message|issues|v]; cbn [is_unauthorized carries_marker].
  - apply includes_spec.
  - apply includes_spec.
  - split; [discriminate|contradiction].
Qed.

(** A try block that ends without throwing ends with 200 or 401. *)
Lemma try_block_status (env : Env) (request : NextRequest) (params : Params)
    (t : list Event) (r : Response) :
  GET_try env request params = (t, Ok r) \/
  PATCH_try env request params = (t, Ok r) \/
  DELETE_try env request params = (t, Ok r) ->
  status r = 200 \/ status r = 401.
Proof.
  intros [H|[H|H]]; revert H; unfold_try; repeat next_case;
    intros [= <- <-]; auto.
Qed.

(** X2. A 404 is only ever the answer to a thrown [Error] that carries the
    marker: if a handler answers 404, its try block threw, the thrown value
    is an [Error] whose message contains "Unauthorized" (for PATCH, one that
    is not a [ZodError]), and the body is [{ error: "Not found or
    unauthorized" }].  A thrown value that is not an [Error] never leads to
    404. *)
Theorem status_404_only_for_marked_errors (env : Env) (request : NextRequest)
    (params : Params) (r : Response) :
  status r = 404 ->
  (outcome_of (GET env request params) = Ok r ->
   exists t e, GET_try env request params = (t, Throw e) /\
               carries_marker env e /\ r = not_found) /\
  (outcome_of (PATCH env request params) = Ok r ->
   exists t e, PATCH_try env request params = (t, Throw e) /\
               carries_marker env e /\ (forall issues, e <> ThrownZodError issues) /\
               r = not_found) /\
  (outcome_of (DELETE env request params) = Ok r ->
   exists t e, DELETE_try env request params = (t, Throw e) /\
               carries_marker env e /\ r = not_found).
Proof.
  intros Hst. split; [|split].
  - unfold GET, outcome_of.
    destruct (GET_try env request params) as [t [r'|e]] eqn:Htry; cbn [try_catch snd].
    + intros [= ->].
      destruct (try_block_status env request params t r (or_introl Htry)) as [H|H];
        rewrite H in Hst; discriminate Hst.
    + unfold GET_catch. destruct (is_unauthorized env e) eqn:Hm; cbn; intros [= <-].
      * exists t, e. split; [reflexivity|]. split; [now apply is_unauthorized_spec|reflexivity].
      * discriminate Hst.
  - unfold PATCH, outcome_of.
    destruct (PATCH_try env request params) as [t [r'|e]] eqn:Htry; cbn [try_catch snd].
    + intros [= ->].
      destruct (try_block_status env request params t r (or_intror (or_introl Htry))) as [H|H];
        rewrite H in Hst; discriminate Hst.
    + unfold PATCH_catch. destruct e as [name message|issues|v].
      * destruct (is_unauthorized env (ThrownError name message)) eqn:Hm; cbn; intros [= <-].
        -- exists t, (ThrownError name message). split; [reflexivity|].
           split; [now apply is_unauthorized_spec|]. split; [discriminate|reflexivity].
        -- discriminate Hst.
      * cbn. intros [= <-]. discriminate Hst.
      * cbn. intros [= <-]. discriminate Hst.
  - unfold DELETE, outcome_of.
    destruct (DELETE_try env request params) as [t [r'|e]] eqn:Htry; cbn [try_catch snd].
    + intros [= ->].
      destruct (try_block_status env request params t r (or_intror (or_intror Htry))) as [H|H];
        rewrite H in Hst; discriminate Hst.
    + unfold DELETE_catch. destruct (is_unauthorized env e) eqn:Hm; cbn; intros [= <-].
      * exists t, e. split; [reflexivity|]. split; [now apply is_unauthorized_spec|reflexivity].
      * discriminate Hst.
Qed.

Lemma status_404_only_for_marked_errors_witness :
  exists t e, DELETE_try rejecting_env (request_with_query [("permanent", "true")]) entity_42
                = (t, Throw e) /\
              carries_marker rejecting_env e /\ not_found = not_found.
Proof.
  exact (proj2 (proj2 (status_404_only_for_marked_errors rejecting_env
                         (request_with_query [("permanent", "true")]) entity_42
                         not_found eq_refl)) eq_refl).
Defined.

(** ** Logging *)

(** The try blocks write no error entry themselves. *)
Lemma try_block_no_error_log (env : Env) (request : NextRequest) (params : Params)
    (t : list Event) (res : Result Response) :
  GET_try env request params = (t, res) \/
  PATCH_try env request params = (t, res) \/
  DELETE_try env request params = (t, res) ->
  error_logs t = [].
Proof.
  intros [H|[H|H]]; revert H; unfold_try; repeat next_case;
    intros [= <- <-]; reflexivity.
Qed.

Lemma error_logs_app (t1 t2 : list Event) :
  error_logs (t1 ++ t2) = (error_logs t1 ++ error_logs t2)%list.
Proof. apply filter_app. Qed.

(** X8. The error log and the 500 go together: a handler that answers 500
    has written exactly one error entry, with the handler's own message, the
    very value its try block threw and the entity id of the path; a handler
    that answers anything else has written no error entry. *)
Theorem error_logged_iff_500 (env : Env) (request : NextRequest) (params : Params)
    (r : Response) :
  (outcome_of (GET env request params) = Ok r ->
   (status r = 500 ->
    exists t e, GET_try env request params = (t, Throw e) /\
                error_logs (trace_of (GET env request params)) =
                  [EvLogError "Error fetching entity" e (id params)]) /\
   (status r <> 500 -> error_logs (trace_of (GET env request params)) = [])) /\
  (outcome_of (PATCH env request params) = Ok r ->
   (status r = 500 ->
    exists t e, PATCH_try env request params = (t, Throw e) /\
                error_logs (trace_of (PATCH env request params)) =
                  [EvLogError "Error updating entity" e (id params)]) /\
   (status r <> 500 -> error_logs (trace_of (PATCH env request params)) = [])) /\
  (outcome_of (DELETE env request params) = Ok r ->
   (status r = 500 ->
    exists t e, DELETE_try env request params = (t, Throw e) /\
                error_logs (trace_of (DELETE env request params)) =
                  [EvLogError "Error deleting entity" e (id params)]) /\
   (status r <> 500 -> error_logs (trace_of (DELETE env request params)) = [])).
Proof.
  split; [|split].
  - unfold GET, outcome_of, trace_of.
    destruct (GET_try env request params) as [t [r'|e]] eqn:Htry; cbn [try_catch fst snd].
    + pose proof (try_block_no_error_log env request params t _ (or_introl Htry)) as Hlog.
      intros [= ->]. split; [|intros _; exact Hlog].
      intros Hst.
      destruct (try_block_status env request params t r (or_introl Htry)) as [H|H];
        rewrite H in Hst; discriminate Hst.
    + pose proof (try_block_no_error_log env request params t _ (or_introl Htry)) as Hlog.
      unfold GET_catch. destruct (is_unauthorized env e); cbn; intros [= <-];
        rewrite error_logs_app, Hlog.
      * split; [intros Hst; discriminate Hst|reflexivity].
      * split; [intros _; exists t, e; split; reflexivity|intros Hst; now destruct Hst].
  - unfold PATCH, outcome_of, trace_of.
    destruct (PATCH_try env request params) as [t [r'|e]] eqn:Htry; cbn [try_catch fst snd].
    + pose proof (try_block_no_error_log env request params t _ (or_intror (or_introl Htry)))
        as Hlog.
      intros [= ->]. split; [|intros _; exact Hlog].
      intros Hst.
      destruct (try_block_status env request params t r (or_intror (or_introl Htry))) as [H|H];
        rewrite H in Hst; discriminate Hst.
    + pose proof (try_block_no_error_log env request params t _ (or_intror (or_introl Htry)))
        as Hlog.
      unfold PATCH_catch. destruct e as [name message|issues|v].
      * destruct (is_unauthorized env (ThrownError name message)); cbn; intros [= <-];
          rewrite error_logs_app, Hlog.
        -- split; [intros Hst; discriminate Hst|reflexivity].
        -- split; [intros _; eexists t, _; split; reflexivity|intros Hst; now destruct Hst].
      * cbn. intros [= <-]. rewrite error_logs_app, Hlog.
        split; [intros Hst; discriminate Hst|reflexivity].
      * cbn. intros [= <-]. rewrite error_logs_app, Hlog.
        split; [intros _; eexists t, _; split; reflexivity|intros Hst; now destruct Hst].
  - unfold DELETE, outcome_of, trace_of.
    destruct (DELETE_try env request params) as [t [r'|e]] eqn:Htry; cbn [try_catch fst snd].
    + pose proof (try_block_no_error_log env request params t _ (or_intror (or_intror Htry)))
        as Hlog.
      intros [= ->]. split; [|intros _; exact Hlog].
      intros Hst.
      destruct (try_block_status env request params t r (or_intror (or_intror Htry))) as [H|H];
        rewrite H in Hst; discriminate Hst.
    + pose proof (try_block_no_error_log env request params t _ (or_intror (or_intror Htry)))
        as Hlog.
      unfold DELETE_catch. destruct (is_unauthorized env e); cbn; intros [= <-];
        rewrite error_logs_app, Hlog.
      * split; [intros Hst; discriminate Hst|reflexivity].
      * split; [intros _; exists t, e; split; reflexivity|intros Hst; now destruct Hst].
Qed.

Lemma error_logged_iff_500_witness :
  exists t e,
    PATCH_try failing_env (request_with_body (Ok (JObject [("name", JString "Acme")]))) entity_42
      = (t, Throw e) /\
    error_logs (trace_of (PATCH failing_env
                            (request_with_body (Ok (JObject [("name", JString "Acme")])))
                            entity_42)) =
      [EvLogError "Error updating entity" e "42"].
Proof.
  exact (proj1 (proj1 (proj2 (error_logged_iff_500 failing_env
                  (request_with_body (Ok (JObject [("name", JString "Acme")]))) entity_42
                  internal_error)) eq_refl) eq_refl).
Defined.

(** X9. The info log and the 200 go together on PATCH and DELETE: an update
    that is answered 200 has written one info entry with the id read from
    the returned entity; a delete that is answered 200 has written one info
    entry with the entity id of the path and the [permanent] flag; any other
    answer comes with no info entry.  GET never writes an info entry. *)
Theorem info_logged_iff_200 (env : Env) (request : NextRequest) (params : Params)
    (r : Response) :
  info_logs (trace_of (GET env request params)) = [] /\
  (outcome_of (PATCH env request params) = Ok r ->
   (forall u, r = {| status := 200; body := data_body u |} ->
      info_logs (trace_of (PATCH env request params)) =
        [EvLogInfo "Entity updated successfully" [("entityId", member u "id")]]) /\
   (status r <> 200 -> info_logs (trace_of (PATCH env request params)) = [])) /\
  (outcome_of (DELETE env request params) = Ok r ->
   (status r = 200 ->
      info_logs (trace_of (DELETE env request params)) =
        [EvLogInfo "Entity deleted/archived successfully"
           [("entityId", JString (id params));
            ("permanent",
             JBool (is_true_string (searchParams_get (searchParams request) "permanent")))]]) /\
   (status r <> 200 -> info_logs (trace_of (DELETE env request params)) = [])).
Proof.
  split; [|split].
  - all_cases; reflexivity.
  - all_cases; intros [= <-];
      (split; [intros u Hr; try discriminate Hr; injection Hr as <-; reflexivity
              |intros Hst; try reflexivity; now destruct Hst]).
  - all_cases; intros [= <-];
      (split; [intros Hst; try discriminate Hst; reflexivity
              |intros Hst; try reflexivity; now destruct Hst]).
Qed.

Lemma info_logged_iff_200_witness :
  info_logs (trace_of (DELETE sample_env (request_with_query [("permanent", "true")]) entity_42)) =
    [EvLogInfo "Entity deleted/archived successfully"
       [("entityId", JString "42"); ("permanent", JBool true)]].
Proof.
  exact (proj1 (proj2 (proj2 (info_logged_iff_200 sample_env
                  (request_with_query [("permanent", "true")]) entity_42
                  {| status := 200; body := message_body "Entity deleted" |})) eq_refl) eq_refl).
Defined.

(** ** The call to the service *)

(** X10. Each request makes at most one call to the entity service, and
    when it makes one it is the handler's own operation, scoped by the tenant
    id of the resolved context, the entity id of the path and (for writes)
    the user id of the session; PATCH passes the input the schema produced
    from the body. *)
Theorem one_scoped_domain_call (env : Env) (request : NextRequest) (params : Params) :
  (domain_calls (trace_of (GET env request params)) = [] \/
   exists session uid ctx,
     env_getServerSession env = Ok session /\ authenticated session = Some uid /\
     env_getContext env = Ok ctx /\
     domain_calls (trace_of (GET env request params)) =
       [EvGetEntity (tenantId ctx) (id params)]) /\
  (domain_calls (trace_of (PATCH env request params)) = [] \/
   exists session uid ctx data input,
     env_getServerSession env = Ok session /\ authenticated session = Some uid /\
     env_getContext env = Ok ctx /\
     request_json request = Ok data /\ schema_parse updateEntitySchema data = Ok input /\
     domain_calls (trace_of (PATCH env request params)) =
       [EvUpdateEntity (tenantId ctx) (id params) uid input]) /\
  (domain_calls (trace_of (DELETE env request params)) = [] \/
   exists session uid ctx,
     env_getServerSession env = Ok session /\ authenticated session = Some uid /\
     env_getContext env = Ok ctx /\
     domain_calls (trace_of (DELETE env request params)) =
       [if is_true_string (searchParams_get (searchParams request) "permanent")
        then EvDeleteEntity (tenantId ctx) (id params) uid
        else EvArchiveEntity (tenantId ctx) (id params) uid]).
Proof.
  split; [|split]; all_cases;
    first [ left; reflexivity
          | right; do 3 eexists; repeat split; eauto; fail
          | right; do 5 eexists; repeat split; eauto; fail ].
Qed.

(** ** What the update schema accepts, and what it hands on *)

Lemma string_issues (checks : list StringCheck) (path : list string) (s : string) :
  snd (_parse (ZodString checks) path (JString s)) = flat_map (run_check path s) checks.
Proof.
  cbn [_parse]. destruct (flat_map (run_check path s) checks); reflexivity.
Qed.

(** The issues of each field of the schema, against the field's constraint. *)
Lemma field_issues (path : list string) (v : option JsValue) :
  let value := match v with Some x => x | None => JUndefined end in
  (snd (_parse (ZodOptional (ZodString [check_min 1; check_max 255])) path value) = [] <->
   optional_field name_ok v = true) /\
  (snd (_parse (ZodOptional (ZodString [])) path value) = [] <->
   optional_field is_string v = true) /\
  (snd (_parse (ZodOptional (ZodEnum ["ACTIVE"; "PENDING"; "ARCHIVED"; "SUSPENDED"])) path value)
     = [] <->
   optional_field status_ok v = true).
Proof.
  destruct v as [value|]; cbn zeta; [|repeat split; reflexivity].
  destruct value;
    try (repeat split; intros H; try reflexivity; discriminate H).
  split; [|split].
  - change (_parse (ZodOptional (ZodString [check_min 1; check_max 255])) path (JString s))
      with (_parse (ZodString [check_min 1; check_max 255]) path (JString s)).
    rewrite string_issues.
    cbn [optional_field name_ok flat_map run_check app].
    destruct (Nat.ltb_spec (String.length s) 1) as [H1|H1];
      destruct (Nat.ltb_spec 255 (String.length s)) as [H2|H2];
      destruct (Nat.leb_spec 1 (String.length s)) as [H3|H3];
      destruct (Nat.leb_spec (String.length s) 255) as [H4|H4];
      cbn [app andb]; split; intros H; try reflexivity; try discriminate H; lia.
  - split; reflexivity.
  - cbn [_parse optional_field status_ok].
    destruct (string_member s ["ACTIVE"; "PENDING"; "ARCHIVED"; "SUSPENDED"]);
      split; intros H; try reflexivity; discriminate H.
Qed.

(** An object body is accepted exactly when no field raises an issue. *)
Lemma schema_parse_ok_iff (shape : ZodObject) (props : list (string * JsValue)) :
  (exists input, schema_parse shape (JObject props) = Ok input) <->
  flat_map snd (map (parse_field props) shape) = [].
Proof.
  unfold schema_parse. cbn [object_parse].
  destruct (mergeObjectSync false [] (map fst (map (parse_field props) shape)))
    as [|value|value] eqn:E.
  - split.
    + intros [input H]. destruct (flat_map snd (map (parse_field props) shape)); discriminate H.
    + intros Hnil. destruct (merge_not_valid props shape false []) as [H|H];
        [rewrite E; discriminate|discriminate H|contradiction].
  - split.
    + intros [input H]. destruct (flat_map snd (map (parse_field props) shape)); discriminate H.
    + intros Hnil. destruct (merge_not_valid props shape false []) as [H|H];
        [rewrite E; discriminate|discriminate H|contradiction].
  - split.
    + intros _. apply merge_valid in E. now destruct E as [_ [E _]].
    + intros _. exists value. reflexivity.
Qed.

Lemma schema_issues (props : list (string * JsValue)) :
  flat_map snd (map (parse_field props) updateEntitySchema) =
    (snd (_parse (ZodOptional (ZodString [check_min 1; check_max 255])) ["name"]
            (property props "name"))
     ++ snd (_parse (ZodOptional (ZodString [])) ["legalForm"] (property props "legalForm"))
     ++ snd (_parse (ZodOptional (ZodEnum ["ACTIVE"; "PENDING"; "ARCHIVED"; "SUSPENDED"]))
               ["status"] (property props "status"))
     ++ snd (_parse (ZodOptional (ZodString [])) ["activityCode"] (property props "activityCode")))%list.
Proof.
  unfold updateEntitySchema. cbn [map flat_map].
  rewrite !parse_field_eq. cbn [snd]. rewrite app_nil_r. reflexivity.
Qed.

(** X12. What the schema accepts: a body passes exactly when it is an
    object in which [name], if present, is a string of 1 to 255 characters,
    [legalForm] and [activityCode], if present, are strings, and [status], if
    present, is one of ACTIVE, PENDING, ARCHIVED, SUSPENDED.  Null is not
    "absent", and an array, a string, a number, a boolean or null as the
    whole body is rejected. *)
Theorem schema_accepts_iff_acceptable (data : JsValue) :
  (exists input, schema_parse updateEntitySchema data = Ok input) <->
  (exists props, data = JObject props /\ acceptable props = true).
Proof.
  split.
  - intros [input H].
    destruct (schema_parse_ok _ _ _ H) as [props [out [-> _]]].
    exists props. split; [reflexivity|].
    assert (Hnil : flat_map snd (map (parse_field props) updateEntitySchema) = []).
    { apply schema_parse_ok_iff. exists input. exact H. }
    rewrite schema_issues in Hnil.
    apply app_eq_nil in Hnil. destruct Hnil as [Hname Hnil].
    apply app_eq_nil in Hnil. destruct Hnil as [Hlegal Hnil].
    apply app_eq_nil in Hnil. destruct Hnil as [Hstatus Hactivity].
    unfold acceptable. unfold property in *.
    apply (proj1 (proj1 (field_issues ["name"] (lookup props "name")))) in Hname.
    apply (proj1 (proj1 (proj2 (field_issues ["legalForm"] (lookup props "legalForm"))))) in Hlegal.
    apply (proj1 (proj2 (proj2 (field_issues ["status"] (lookup props "status"))))) in Hstatus.
    apply (proj1 (proj1 (proj2 (field_issues ["activityCode"] (lookup props "activityCode")))))
      in Hactivity.
    rewrite Hname, Hlegal, Hstatus, Hactivity. reflexivity.
  - intros [props [-> Hok]].
    apply schema_parse_ok_iff. rewrite schema_issues.
    unfold acceptable in Hok.
    apply andb_true_iff in Hok. destruct Hok as [Hok Hactivity].
    apply andb_true_iff in Hok. destruct Hok as [Hok Hstatus].
    apply andb_true_iff in Hok. destruct Hok as [Hname Hlegal].
    unfold property.
    apply (proj2 (proj1 (field_issues ["name"] (lookup props "name")))) in Hname.
    apply (proj2 (proj1 (proj2 (field_issues ["legalForm"] (lookup props "legalForm"))))) in Hlegal.
    apply (proj2 (proj2 (proj2 (field_issues ["status"] (lookup props "status"))))) in Hstatus.
    apply (proj2 (proj1 (proj2 (field_issues ["activityCode"] (lookup props "activityCode")))))
      in Hactivity.
    cbv zeta in Hname, Hlegal, Hstatus, Hactivity.
    rewrite Hname, Hlegal, Hstatus, Hactivity. reflexivity.
Qed.

Lemma set_key_pick (props : list (string * JsValue)) (key : string)
    (acc : list (string * JsValue)) :
  key <> "__proto__" ->
  set_key (mkPair key (VALID (property props key)) (has_property props key))
          (property props key) acc
    = (acc ++ pick props key)%list.
Proof.
  intros Hkey. unfold set_key, pick, property, has_property. cbn [pair_key alwaysSet].
  destruct (String.eqb_spec key "__proto__") as [Heq|_]; [contradiction|].
  cbn [negb andb].
  destruct (lookup props key) as [v|]; cbn [is_undefined negb orb].
  - rewrite orb_true_r. reflexivity.
  - rewrite app_nil_r. reflexivity.
Qed.

(** A valid merge is the accumulator followed by the body cut down to the
    keys of the shape. *)
Lemma merge_restrict (props : list (string * JsValue)) (shape : ZodObject) :
  Forall (fun key => key <> "__proto__") (map fst shape) ->
  forall (dirty : bool) (acc : list (string * JsValue)) (v : JsValue),
    mergeObjectSync dirty acc (map fst (map (parse_field props) shape)) = VALID v ->
    v = JObject (acc ++ restrict props (map fst shape)).
Proof.
  induction shape as [|[key t] shape IH]; intros Hkeys dirty acc v;
    cbn [map mergeObjectSync restrict flat_map fst].
  - destruct dirty; [discriminate|]. intros [= <-]. rewrite app_nil_r. reflexivity.
  - inversion Hkeys as [|k ks Hkey Hrest]; subst.
    rewrite parse_field_eq. cbn [fst pair_value].
    destruct (_parse t [key] (property props key)) as [st issues] eqn:E. cbn [fst].
    destruct st as [|value|value]; [discriminate| |].
    + intros H. apply merge_valid in H. destruct H as [H _]. discriminate H.
    + apply _parse_valid in E. destruct E as [-> _].
      rewrite set_key_pick by exact Hkey.
      intros H. apply (IH Hrest) in H. rewrite <- app_assoc in H. exact H.
Qed.

Lemma lookup_app (l1 l2 : list (string * JsValue)) (key : string) :
  lookup (l1 ++ l2) key =
    match lookup l1 key with
    | Some v => Some v
    | None => lookup l2 key
    end.
Proof.
  induction l1 as [|[k v] l1 IH]; cbn [app lookup]; [reflexivity|].
  destruct (String.eqb k key); [reflexivity|exact IH].
Qed.

(** Looking a key up in the cut-down body: the body's own property when the
    key is one of those kept, nothing otherwise. *)
Lemma lookup_restrict (props : list (string * JsValue)) (ks : list string) (key : string) :
  lookup (restrict props ks) key =
    if string_member key ks then lookup props key else None.
Proof.
  induction ks as [|k ks IH]; [reflexivity|].
  cbn [restrict flat_map]. fold (restrict props ks). rewrite lookup_app, IH.
  unfold string_member. cbn [existsb]. fold (string_member key ks).
  unfold pick. destruct (String.eqb_spec key k) as [->|Hne]; cbn [orb].
  - destruct (lookup props k) as [v|] eqn:E; cbn [lookup].
    + rewrite String.eqb_refl. reflexivity.
    + destruct (string_member k ks); reflexivity.
  - destruct (lookup props k) as [v|]; cbn [lookup]; [|reflexivity].
    destruct (String.eqb_spec k key) as [Heq|_]; [now destruct Hne|reflexivity].
Qed.

(** The parse of an object looks at the body only through the keys of the
    shape. *)
Lemma schema_parse_ext (shape : ZodObject) (p1 p2 : list (string * JsValue)) :
  (forall key, In key (map fst shape) -> lookup p1 key = lookup p2 key) ->
  schema_parse shape (JObject p1) = schema_parse shape (JObject p2).
Proof.
  intros Hsame. unfold schema_parse, object_parse.
  assert (H : map (parse_field p1) shape = map (parse_field p2) shape).
  { apply map_ext_in. intros [key t] Hin.
    unfold parse_field, property, has_property.
    rewrite (Hsame key (in_map fst _ _ Hin)). reflexivity. }
  rewrite H. reflexivity.
Qed.

Lemma schema_keys_not_proto : Forall (fun key => key <> "__proto__") schema_keys.
Proof. repeat constructor; discriminate. Qed.

(** X13. The input of a valid update is the body cut down to the schema:
    it lists, in the order name, legalForm, status, activityCode, exactly the
    properties the body has under these keys, each with the body's value;
    nothing is added, defaulted, trimmed or converted. *)
Theorem accepted_input_is_restriction (props : list (string * JsValue)) (input : JsValue) :
  schema_parse updateEntitySchema (JObject props) = Ok input ->
  input = JObject (restrict props ["name"; "legalForm"; "status"; "activityCode"]) /\
  forall key,
    member input key =
      if string_member key ["name"; "legalForm"; "status"; "activityCode"]
      then property props key else JUndefined.
Proof.
  intros H.
  assert (Hin : input = JObject (restrict props ["name"; "legalForm"; "status"; "activityCode"])).
  { unfold schema_parse in H. cbn [object_parse] in H.
    destruct (mergeObjectSync false [] (map fst (map (parse_field props) updateEntitySchema)))
      as [|value|value] eqn:E;
      try (destruct (flat_map snd (map (parse_field props) updateEntitySchema)); discriminate H).
    injection H as <-.
    exact (merge_restrict props updateEntitySchema schema_keys_not_proto _ _ _ E). }
  split; [exact Hin|].
  intros key. rewrite Hin. unfold member, property. rewrite lookup_restrict.
  destruct (string_member key ["name"; "legalForm"; "status"; "activityCode"]); reflexivity.
Qed.

Lemma accepted_input_is_restriction_witness :
  let props := [("debug", JBool true); ("status", JString "ARCHIVED"); ("name", JString "Acme")] in
  JObject [("name", JString "Acme"); ("status", JString "ARCHIVED")] =
    JObject (restrict props ["name"; "legalForm"; "status"; "activityCode"]).
Proof.
  intros props.
  exact (proj1 (accepted_input_is_restriction props
                  (JObject [("name", JString "Acme"); ("status", JString "ARCHIVED")]) eq_refl)).
Defined.

(** X14. Validation is idempotent: an input the schema has produced passes
    the schema again, unchanged. *)
Theorem schema_parse_idempotent (data input : JsValue) :
  schema_parse updateEntitySchema data = Ok input ->
  schema_parse updateEntitySchema input = Ok input.
Proof.
  intros H.
  destruct (schema_parse_ok _ _ _ H) as [props [out [-> _]]].
  destruct (accepted_input_is_restriction props input H) as [Hin _].
  rewrite <- H. rewrite Hin. apply schema_parse_ext.
  intros key Hkey. rewrite lookup_restrict.
  assert (Hm : string_member key ["name"; "legalForm"; "status"; "activityCode"] = true).
  { unfold string_member. apply existsb_exists. exists key.
    split; [exact Hkey|apply String.eqb_refl]. }
  rewrite Hm. reflexivity.
Qed.

Lemma schema_parse_idempotent_witness :
  schema_parse updateEntitySchema (JObject [("legalForm", JString "LLC")]) =
    Ok (JObject [("legalForm", JString "LLC")]).
Proof.
  exact (schema_parse_idempotent
           (JObject [("legalForm", JString "LLC"); ("role", JString "admin")])
           (JObject [("legalForm", JString "LLC")]) eq_refl).
Defined.

Lemma thrown_issues (shape : ZodObject) (props : list (string * JsValue))
    (issues : list ZodIssue) :
  schema_parse shape (JObject props) = Throw (ThrownZodError issues) ->
  issues = flat_map snd (map (parse_field props) shape).
Proof.
  unfold schema_parse. cbn [object_parse].
  destruct (mergeObjectSync false [] (map fst (map (parse_field props) shape)));
    destruct (flat_map snd (map (parse_field props) shape)); try discriminate;
    intros [= <-]; reflexivity.
Qed.

Lemma reported_field (key : string) (mine issues : list ZodIssue) (ok : bool) :
  (forall i, In i issues -> issue_path i = [key] -> In i mine) ->
  (forall i, In i mine -> In i issues /\ issue_path i = [key]) ->
  (mine = [] <-> ok = true) ->
  (exists i, In i issues /\ issue_path i = [key]) <-> ok = false.
Proof.
  intros Honly Hmine Hok. split.
  - intros [i [Hin Hpath]]. apply Honly in Hin; [|exact Hpath].
    destruct ok; [|reflexivity].
    rewrite (proj2 Hok eq_refl) in Hin. contradiction.
  - intros Hfalse. destruct mine as [|i rest].
    + rewrite (proj1 Hok eq_refl) in Hfalse. discriminate Hfalse.
    + exists i. apply Hmine. left. reflexivity.
Qed.

(** X15. The details of a rejected object body name every offending field,
    not only the first one, and no other: there is an issue located at a
    field exactly when that field breaks its constraint. *)
Theorem every_invalid_field_is_reported (props : list (string * JsValue))
    (issues : list ZodIssue) :
  schema_parse updateEntitySchema (JObject props) = Throw (ThrownZodError issues) ->
  let reported key := exists i, In i issues /\ issue_path i = [key] in
  (reported "name" <-> optional_field name_ok (lookup props "name") = false) /\
  (reported "legalForm" <-> optional_field is_string (lookup props "legalForm") = false) /\
  (reported "status" <-> optional_field status_ok (lookup props "status") = false) /\
  (reported "activityCode" <-> optional_field is_string (lookup props "activityCode") = false).
Proof.
  intros H reported. apply thrown_issues in H. rewrite schema_issues in H.
  pose proof (_parse_issue_paths (ZodOptional (ZodString [check_min 1; check_max 255]))
                ["name"] (property props "name")) as P1.
  pose proof (_parse_issue_paths (ZodOptional (ZodString []))
                ["legalForm"] (property props "legalForm")) as P2.
  pose proof (_parse_issue_paths
                (ZodOptional (ZodEnum ["ACTIVE"; "PENDING"; "ARCHIVED"; "SUSPENDED"]))
                ["status"] (property props "status")) as P3.
  pose proof (_parse_issue_paths (ZodOptional (ZodString []))
                ["activityCode"] (property props "activityCode")) as P4.
  pose proof (proj1 (field_issues ["name"] (lookup props "name"))) as F1.
  pose proof (proj1 (proj2 (field_issues ["legalForm"] (lookup props "legalForm")))) as F2.
  pose proof (proj2 (proj2 (field_issues ["status"] (lookup props "status")))) as F3.
  pose proof (proj1 (proj2 (field_issues ["activityCode"] (lookup props "activityCode")))) as F4.
  cbv zeta in F1, F2, F3, F4. unfold property in *.
  rewrite Forall_forall in P1, P2, P3, P4.
  subst reported. cbv beta.
  split; [|split; [|split]];
    match goal with
    | |- (exists i, In i _ /\ issue_path i = [?k]) <-> ?ok = false =>
        first [ apply (reported_field k _ issues ok) with (3 := F1)
              | apply (reported_field k _ issues ok) with (3 := F2)
              | apply (reported_field k _ issues ok) with (3 := F3)
              | apply (reported_field k _ issues ok) with (3 := F4) ]
    end.
  all: try (intros i Hin Hp; rewrite H, !in_app_iff in Hin;
            destruct Hin as [Hin|[Hin|[Hin|Hin]]];
            first [ exact Hin
                  | apply P1 in Hin; rewrite Hin in Hp; discriminate Hp
                  | apply P2 in Hin; rewrite Hin in Hp; discriminate Hp
                  | apply P3 in Hin; rewrite Hin in Hp; discriminate Hp
                  | apply P4 in Hin; rewrite Hin in Hp; discriminate Hp ]).
  all: intros i Hin; split;
    [ rewrite H, !in_app_iff; tauto
    | first [exact (P1 i Hin)|exact (P2 i Hin)|exact (P3 i Hin)|exact (P4 i Hin)] ].
Qed.

Lemma every_invalid_field_is_reported_witness :
  let props := [("name", JString ""); ("legalForm", JString "LLC"); ("status", JString "DELETED")] in
  let issues := [too_small 1 ["name"];
                 invalid_enum_value "DELETED" ["ACTIVE"; "PENDING"; "ARCHIVED"; "SUSPENDED"]
                                    ["status"]] in
  ((exists i, In i issues /\ issue_path i = ["name"]) <->
   optional_field name_ok (lookup props "name") = false) /\
  ((exists i, In i issues /\ issue_path i = ["legalForm"]) <->
   optional_field is_string (lookup props "legalForm") = false).
Proof.
  intros props issues.
  destruct (every_invalid_field_is_reported props issues eq_refl) as [Hname [Hlegal _]].
  split; [exact Hname|exact Hlegal].
Defined.

(** X11. The entity service is never called on behalf of an empty user id:
    the user id of every update, delete or archive call is the id of the
    session's user, and it is not the empty string. *)
Theorem service_never_sees_empty_user (env : Env) (request : NextRequest) (params : Params)
    (handler : Env -> NextRequest -> Params -> M Response)
    (ev : Event) (tenant entityId userId : string) :
  In handler [GET; PATCH; DELETE] ->
  In ev (trace_of (handler env request params)) ->
  (exists input, ev = EvUpdateEntity tenant entityId userId input) \/
  ev = EvDeleteEntity tenant entityId userId \/
  ev = EvArchiveEntity tenant entityId userId ->
  userId <> "" /\
  exists session,
    env_getServerSession env = Ok session /\ session_user_id session = Some userId.
Proof.
  intros Hin.
  assert (Hh : handler = GET \/ handler = PATCH \/ handler = DELETE).
  { cbn [In] in Hin. intuition auto. }
  assert (Hauth : forall session uid,
            authenticated session = Some uid ->
            uid <> "" /\ session_user_id session = Some uid).
  { intros session uid. unfold authenticated.
    destruct (session_user_id session) as [u|]; [|discriminate].
    destruct (String.eqb_spec u "") as [->|Hne]; [discriminate|].
    intros [= ->]. split; [exact Hne|reflexivity]. }
  clear Hin. destruct Hh as [ -> | [ -> | -> ] ];
    all_cases; cbn [In]; intros Hev Hkind;
    repeat (destruct Hev as [Hev|Hev]; [subst ev|]); try contradiction;
    destruct Hkind as [[input Hk]|[Hk|Hk]]; try discriminate Hk;
    injection Hk as <- <- <-;
    match goal with
    | Ha : authenticated ?s = Some ?u |- _ =>
        destruct (Hauth s u Ha) as [Hne Hid]; split; [exact Hne|eauto]
    end.
Qed.

Lemma service_never_sees_empty_user_witness :
  "user-1" <> "" /\
  exists session,
    env_getServerSession sample_env = Ok session /\ session_user_id session = Some "user-1".
Proof.
  apply (service_never_sees_empty_user sample_env (request_with_query []) entity_42 DELETE
           (EvArchiveEntity "tenant-1" "42" "user-1") "tenant-1" "42" "user-1").
  - right. right. left. reflexivity.
  - right. right. left. reflexivity.
  - right. right. reflexivity.
Defined.
